(** * Schema-adaptive data-access shim of the Radar pages and smoke scripts

    A shallow embedding of the retry loops and error classifiers found in
    - [src/app/(main)/radar/page.tsx]        (module [Page]),
    - [src/app/(main)/radar/[id]/page.tsx]   (module [Detail]),
    - the two smoke scripts                   (module [Script]),
    together with the orchestration functions built on them
    ([createRadarEvent], [joinRadarEvent], [setCheckOutNow],
    [archiveCheckInsByUser], [updateParticipantDecision]).

    Conventions of the embedding.
    - Error messages are [string]s, read as sequences of ASCII code units:
      [toLowerCase] and the [i] flag fold the letters A-Z only, [\s] is the
      ASCII white space.
    - A JS object used as a payload is a [gmap string value] holding its
      own properties; the [in] operator additionally sees the property
      names every object inherits from [Object.prototype].
    - The remote store is an arbitrary state machine [respond]; every
      awaited query resolves, is one call of [respond], and is recorded in a
      log of exchanges (request, response) in the order they were issued.
    - [throw] is an outcome of its own, the [for] loops with a literal
      ceiling are structural recursions on the number of attempts left. *)

From Stdlib Require Import Ascii String List Bool Arith Lia.
From stdpp Require Import base option list gmap strings fin_maps.

Local Open Scope string_scope.
Local Open Scope list_scope.

(** ** Strings: the fragment of the JS string API the shim relies on *)

Module Str.

(** [String.prototype.toLowerCase], on ASCII code units. *)
Definition lower_ascii (c : ascii) : ascii :=
  let n := nat_of_ascii c in
  if ((65 <=? n) && (n <=? 90))%nat then ascii_of_nat (n + 32) else c.

Fixpoint toLowerCase (s : string) : string :=
  match s with
  | EmptyString => EmptyString
  | String c t => String (lower_ascii c) (toLowerCase t)
  end.

(** [String.prototype.toUpperCase], on ASCII code units. *)
Definition upper_ascii (c : ascii) : ascii :=
  let n := nat_of_ascii c in
  if ((97 <=? n) && (n <=? 122))%nat then ascii_of_nat (n - 32) else c.

Fixpoint toUpperCase (s : string) : string :=
  match s with
  | EmptyString => EmptyString
  | String c t => String (upper_ascii c) (toUpperCase t)
  end.

(** [s.startsWith(p)]. *)
Fixpoint startsWith (p s : string) : bool :=
  match p, s with
  | EmptyString, _ => true
  | String a p', String b s' => Ascii.eqb a b && startsWith p' s'
  | String _ _, EmptyString => false
  end.

(** [s.includes(p)]: some suffix of [s] starts with [p]. *)
Fixpoint includes (s p : string) : bool :=
  startsWith p s ||
  match s with
  | EmptyString => false
  | String _ t => includes t p
  end.

(** The double quote character, which a string literal cannot spell. *)
Definition dq : ascii := ascii_of_nat 34.
Definition sq : ascii := ascii_of_nat 39.

(** [quoted q s] is [s] between two copies of the quote character [q]. *)
Definition quoted (q : ascii) (s : string) : string :=
  String q (s +:+ String q EmptyString).

(** The class [\s] restricted to ASCII: TAB, LF, VT, FF, CR and space. *)
Definition is_space (c : ascii) : bool :=
  let n := nat_of_ascii c in
  (((9 <=? n) && (n <=? 13)) || (n =? 32))%nat.

(** Consume a literal under the [i] flag; the rest of the input is returned. *)
Fixpoint strip_ci (lit s : string) : option string :=
  match lit, s with
  | EmptyString, _ => Some s
  | String a lit', String b s' =>
      if Ascii.eqb (lower_ascii a) (lower_ascii b) then strip_ci lit' s' else None
  | String _ _, EmptyString => None
  end.

(** Drop the longest prefix of characters satisfying [p]. *)
Fixpoint drop_while (p : ascii -> bool) (s : string) : string :=
  match s with
  | EmptyString => EmptyString
  | String c t => if p c then drop_while p t else s
  end.

(** The longest prefix of characters satisfying [p]. *)
Fixpoint take_while (p : ascii -> bool) (s : string) : string :=
  match s with
  | EmptyString => EmptyString
  | String c t => if p c then String c (take_while p t) else EmptyString
  end.

(** A greedy, non-empty run of characters outside [stop], which must be
    followed by a character of [stop]: the group [([^q]+)q].  The result is
    the captured run and what follows the closing character. *)
Definition capture_until (stop : ascii -> bool) (s : string) : option (string * string) :=
  let cap := take_while (fun c => negb (stop c)) s in
  match cap, drop_while (fun c => negb (stop c)) s with
  | String _ _, String _ rest => Some (cap, rest)
  | _, _ => None
  end.

(** [RegExp.prototype.exec] for a pattern whose match at a given start is
    decided by [at_]: the leftmost start position that matches wins. *)
Fixpoint search {A} (at_ : string -> option A) (s : string) : option A :=
  match at_ s with
  | Some x => Some x
  | None =>
      match s with
      | EmptyString => None
      | String _ t => search at_ t
      end
  end.

(** The pattern [column\s+q([^q]+)q] under the [i] flag, for a quote
    character [q], anchored at the head of [s]; the result is group 1. *)
Definition column_quoted_at (q : ascii) (s : string) : option string :=
  match strip_ci "column" s with
  | Some (String c r) =>
      if is_space c then
        match drop_while is_space r with
        | String c' r' =>
            if Ascii.eqb c' q
            then fst <$> capture_until (Ascii.eqb q) r'
            else None
        | EmptyString => None
        end
      else None
  | _ => None
  end.

Definition is_quote (c : ascii) : bool := Ascii.eqb c sq || Ascii.eqb c dq.

(** The schema-cache pattern, anchored at the head: the literal
    [could not find the ], a quote of either kind, a non-empty run free of
    quotes (group 1), a quote of either kind, the literal [ column]; the
    [i] flag applies. *)
Definition schema_cache_at (s : string) : option string :=
  match strip_ci "could not find the " s with
  | Some (String c r) =>
      if is_quote c then
        match capture_until is_quote r with
        | Some (cap, rest) =>
            match strip_ci " column" rest with
            | Some _ => Some cap
            | None => None
            end
        | None => None
        end
      else None
  | _ => None
  end.

(** The three regular expressions shared, verbatim, by every copy of
    [extractMissingColumnName]. *)
Definition extract_column (message : string) : option string :=
  match search (column_quoted_at dq) message with
  | Some c => Some c
  | None =>
      match search (column_quoted_at sq) message with
      | Some c => Some c
      | None => search schema_cache_at message
      end
  end.

(** What "the text [m] contains the signal [sig], letter case aside" means,
    stated without reference to the search procedure. *)
Definition contains_ci (m sig : string) : Prop :=
  exists pre mid post, m = pre +:+ mid +:+ post /\ toLowerCase mid = toLowerCase sig.

End Str.

Import Str.

(** ** Values, payloads and the query interface *)

(** The JS values that travel in payloads and rows; the numbers that occur
    (ids, participant limits) are integers. *)
Inductive value : Type :=
| VUndef
| VNull
| VBool (b : bool)
| VNum (n : Z)
| VStr (s : string)
| VObj (fields : props)
with props : Type :=
| PNil
| PCons (key : string) (v : value) (rest : props).

(** A payload ([Record<string, unknown>]): the own properties of the object. *)
Abbreviation payload := (gmap string value).

(** The property names every plain object inherits from [Object.prototype]. *)
Definition object_prototype_keys : list string :=
  [ "constructor"; "__defineGetter__"; "__defineSetter__"; "hasOwnProperty";
    "__lookupGetter__"; "__lookupSetter__"; "isPrototypeOf";
    "propertyIsEnumerable"; "toString"; "valueOf"; "__proto__";
    "toLocaleString" ].

Definition inherited (k : string) : bool :=
  existsb (String.eqb k) object_prototype_keys.

Definition has_own (k : string) (o : payload) : bool :=
  match o !! k with Some _ => true | None => false end.

(** [k in o] for an object literal [o]: own property or inherited one. *)
Definition js_in (k : string) (o : payload) : bool :=
  has_own k o || inherited k.

(** Truthiness ([ToBoolean]). *)
Definition truthy (v : value) : bool :=
  match v with
  | VUndef | VNull => false
  | VBool b => b
  | VNum n => negb (Z.eqb n 0)
  | VStr s => negb (String.eqb s "")
  | VObj _ => true
  end.

Definition nonempty (s : string) : bool := negb (String.eqb s "").

(** [o.k] on a payload or row: [undefined] when the property is absent. *)
Definition get (k : string) (o : payload) : value := default VUndef (o !! k).

(** [v === 'lit'] for a string literal. *)
Definition is_str (lit : string) (v : value) : bool :=
  match v with VStr s => String.eqb s lit | _ => false end.

(** [v?.toString()]: [None] stands for [undefined]. *)
Definition toString_opt (v : value) : option string :=
  match v with
  | VUndef | VNull => None
  | VBool true => Some "true"
  | VBool false => Some "false"
  | VNum n => Some (pretty.pretty n)
  | VStr s => Some s
  | VObj _ => Some "[object Object]"
  end.

(** The error object of a response: [message] and [details] ([details] is
    the empty string when the server sent none). *)
Record PgError := { message : string; details : string }.

(** [data] of a response: [null], one row, or an array of rows. *)
Inductive jsdata : Type :=
| DNull
| DRow (row : payload)
| DRows (rows : list payload).

Record Response := { r_data : jsdata; r_error : option PgError }.

(** [data?.k]: only a single row has named columns. *)
Definition field (k : string) (d : jsdata) : value :=
  match d with DRow r => get k r | _ => VUndef end.

(** The queries the modelled functions build. *)
Inductive Request : Type :=
| Insert (table : string) (body : payload) (select : option string)
| Upsert (table : string) (body : payload) (onConflict : string)
| Update (table : string) (body : payload) (matchers : list (string * value))
| Select (table : string) (columns : string) (matchers : list (string * value))
| Rpc (fn : string) (args : payload).

Definition target (rq : Request) : string :=
  match rq with
  | Insert t _ _ | Upsert t _ _ | Update t _ _ | Select t _ _ => t
  | Rpc f _ => f
  end.

(** The request body of a write, the empty object for reads. *)
Definition body_of (rq : Request) : payload :=
  match rq with
  | Insert _ b _ | Upsert _ b _ | Update _ b _ => b
  | Select _ _ _ => ∅
  | Rpc _ a => a
  end.

Definition Exchange : Type := Request * Response.

(** The error of an exchange, when it failed. *)
Definition reported (x : Exchange) : option PgError := r_error x.2.

(** ** Effects: awaited queries against the remote store, and [throw] *)

Inductive outcome (A : Type) : Type :=
| Ok (a : A)
| Throw (msg : string).
Arguments Ok {A} a.
Arguments Throw {A} msg.

Section Effects.
Context {Srv : Type}.
Variable respond : Srv -> Request -> Response * Srv.

(** A computation runs from a server state and yields its outcome, the
    exchanges it performed, in order, and the server state it left. *)
Definition M (A : Type) : Type := Srv -> outcome A * list Exchange * Srv.

Definition ret {A} (a : A) : M A := fun s => (Ok a, [], s).

Definition throw {A} (msg : string) : M A := fun s => (Throw msg, [], s).

Definition bind {A B} (m : M A) (k : A -> M B) : M B :=
  fun s =>
    match m s with
    | (Ok a, l1, s1) =>
        match k a s1 with
        | (r, l2, s2) => (r, l1 ++ l2, s2)
        end
    | (Throw e, l1, s1) => (Throw e, l1, s1)
    end.

(** [await query]: one round trip. *)
Definition send (rq : Request) : M Response :=
  fun s =>
    match respond s rq with
    | (rs, s') => (Ok rs, [(rq, rs)], s')
    end.
End Effects.

Arguments M Srv A : clear implicits.
Arguments ret {Srv A} a.
Arguments throw {Srv A} msg.
Arguments bind {Srv A B} m k.

Notation "'let*' x ':=' m 'in' k" := (bind m (fun x => k))
  (at level 10, x pattern, m at level 100, k at level 200).

(** Projections of a finished run. *)
Definition result_of {Srv A} (r : outcome A * list Exchange * Srv) : outcome A := r.1.1.
Definition log_of {Srv A} (r : outcome A * list Exchange * Srv) : list Exchange := r.1.2.

(** [strip P cols]: the payload left after [delete P[c]] for each [c] of
    [cols], in order. *)
Definition strip (P : payload) (cols : list string) : payload :=
  foldl (fun w c => delete c w) P cols.

(** ** [src/app/(main)/radar/page.tsx] *)

Module Page.

Definition isMissingColumnError (message : string) : bool :=
  let lower := toLowerCase message in
  includes lower "42703" ||
  includes lower "does not exist" ||
  (includes lower "could not find" && includes lower "column").

Definition isMissingRelationError (message : string) : bool :=
  let lower := toLowerCase message in
  includes lower "42p01" ||
  (includes lower "relation" && includes lower "does not exist") ||
  (includes lower "table" && includes lower "does not exist") ||
  includes lower "could not find the table" ||
  (includes lower "schema cache" && (includes lower "table" || includes lower "relation")).

Definition isDuplicateError (message : string) : bool :=
  let lower := toLowerCase message in
  includes lower "23505" || includes lower "duplicate key".

Definition isPermissionError (message : string) : bool :=
  let lower := toLowerCase message in
  includes lower "42501" ||
  includes lower "permission denied" ||
  includes lower "row-level security".

Definition isFunctionMissingError (message : string) : bool :=
  let lower := toLowerCase message in
  includes lower "could not find the function" || includes lower "does not exist".

Definition isNotAuthenticatedError (message : string) : bool :=
  includes (toLowerCase message) "not authenticated".

Definition isAmbiguousReferenceError (message : string) : bool :=
  let lower := toLowerCase message in
  includes lower "42702" || includes lower "is ambiguous".

Definition shouldFallbackToFinishedStatus (message : string) : bool :=
  let lower := toLowerCase message in
  includes lower "archived" &&
  (includes lower "invalid input value" ||
   includes lower "enum" ||
   includes lower "check constraint").

Definition extractMissingColumnName (message : string) : option string :=
  extract_column message.

(** What [insertWithColumnFallback] returns. *)
Record InsertResult := {
  data : jsdata;
  error : option PgError;
  duplicate : bool
}.

(** The failure synthesized when the attempts are used up. *)
Definition exhausted (table : string) : InsertResult :=
  {| data := DNull;
     error := Some {| message := "Gagal insert ke " +:+ table +:+ " setelah beberapa percobaan";
                      details := "" |};
     duplicate := false |}.

(** The query of one attempt: [options?.select] decides between
    [insert(working).select(..).maybeSingle()] and a bare [insert(working)]. *)
Definition insert_query (table : string) (select : option string) (working : payload) : Request :=
  match select with
  | Some cols => if nonempty cols then Insert table working (Some cols) else Insert table working None
  | None => Insert table working None
  end.

Inductive RadarSource := Legacy | V2.

Inductive RadarMembershipStatus := JOINED | PENDING.

(** The fields of [ActiveCheckIn] that [setCheckOutNow] reads. *)
Record ActiveCheckIn := { ac_id : string; ac_table : string }.

(** The parameter object of [createRadarEvent]; [None] is an omitted
    optional property. *)
Record CreateParams := {
  cp_userId : string;
  cp_churchId : string;
  cp_churchName : option string;
  cp_title : string;
  cp_description : string;
  cp_startsAtIso : string;
  cp_maxParticipants : option Z;
  cp_allowMemberInvite : option bool;
  cp_requireHostApproval : option bool;
  cp_massScheduleId : option string
}.

Section Run.
Context {Srv : Type}.
Variable respond : Srv -> Request -> Response * Srv.

(** The body of the [for] loop of [insertWithColumnFallback], with
    [attempts] iterations left. *)
Fixpoint insert_loop (attempts : nat) (table : string) (select : option string)
    (working : payload) : M Srv InsertResult :=
  match attempts with
  | O => ret (exhausted table)
  | S n =>
      let* result := send respond (insert_query table select working) in
      match r_error result with
      | None => ret {| data := r_data result; error := None; duplicate := false |}
      | Some e =>
          if isDuplicateError (message e) then
            ret {| data := r_data result; error := None; duplicate := true |}
          else
            match extractMissingColumnName (message e) with
            | Some missingColumn =>
                if nonempty missingColumn && js_in missingColumn working
                   && isMissingColumnError (message e)
                then insert_loop n table select (delete missingColumn working)
                else ret {| data := DNull; error := Some e; duplicate := false |}
            | None => ret {| data := DNull; error := Some e; duplicate := false |}
            end
      end
  end.

Definition insertWithColumnFallback (table : string) (payload_ : payload)
    (select : option string) : M Srv InsertResult :=
  insert_loop 8 table select payload_.

(** *** [createRadarEvent] *)

(** [new Date(new Date(iso).getTime() + 90 * 60 * 1000).toISOString()]:
    the calendar arithmetic belongs to the runtime; [None] is the
    [RangeError] it raises on a text that is not a date. *)
Variable plus90Minutes : string -> option string.

Definition hostParticipant (radarId userId : string) : payload :=
  {[ "radar_id" := VStr radarId; "user_id" := VStr userId;
     "role" := VStr "HOST"; "status" := VStr "JOINED" ]}.

(** [if (massScheduleId) { p.schedule_id = ..; p.mass_schedule_id = .. }] *)
Definition withSchedule (massScheduleId : option string) (p : payload) : payload :=
  match massScheduleId with
  | Some sid =>
      if nonempty sid
      then <["mass_schedule_id" := VStr sid]> (<["schedule_id" := VStr sid]> p)
      else p
  | None => p
  end.

Definition num_or_undef (n : option Z) : value :=
  match n with Some z => VNum z | None => VUndef end.

(** [a || b] on an optional string. *)
Definition str_or (a : option string) (b : string) : string :=
  match a with
  | Some x => if nonempty x then x else b
  | None => b
  end.

Definition legacyEventPayload (p : CreateParams) : payload :=
  withSchedule (cp_massScheduleId p)
    {[ "title" := VStr (cp_title p);
       "description" := VStr (cp_description p);
       "church_id" := VStr (cp_churchId p);
       "church_name" := VStr (str_or (cp_churchName p) "Gereja");
       "event_time" := VStr (cp_startsAtIso p);
       "creator_id" := VStr (cp_userId p);
       "visibility" := VStr "PUBLIC";
       "status" := VStr "PUBLISHED";
       "allow_member_invite" := VBool (default true (cp_allowMemberInvite p));
       "require_host_approval" := VBool (default false (cp_requireHostApproval p));
       "max_participants" := num_or_undef (cp_maxParticipants p) ]}.

Definition v2EventPayload (p : CreateParams) (endsAt : string) : payload :=
  withSchedule (cp_massScheduleId p)
    {[ "title" := VStr (cp_title p);
       "description" := VStr (cp_description p);
       "church_id" := VStr (cp_churchId p);
       "creator_id" := VStr (cp_userId p);
       "event_starts_at_utc" := VStr (cp_startsAtIso p);
       "event_ends_at_utc" := VStr endsAt;
       "status" := VStr "PUBLISHED";
       "allow_member_invite" := VBool (default true (cp_allowMemberInvite p));
       "require_host_approval" := VBool (default false (cp_requireHostApproval p));
       "join_mode" := VStr (if default false (cp_requireHostApproval p) then "APPROVAL" else "OPEN");
       "max_participants" := num_or_undef (cp_maxParticipants p) ]}.

(** [!r.error && r.data?.id] *)
Definition created (r : InsertResult) : bool :=
  match error r with
  | None => truthy (field "id" (data r))
  | Some _ => false
  end.

(** [r.data.id.toString()] *)
Definition created_id (r : InsertResult) : string :=
  default "" (toString_opt (field "id" (data r))).

(** [r.error?.message], as the operand of [||]. *)
Definition error_message (r : InsertResult) : option string :=
  message <$> error r.

Definition createRadarEvent (p : CreateParams) : M Srv string :=
  let* legacyCreated :=
    insertWithColumnFallback "radar_events" (legacyEventPayload p) (Some "id") in
  if created legacyCreated then
    let* _ := insertWithColumnFallback "radar_participants"
                (hostParticipant (created_id legacyCreated) (cp_userId p)) None in
    ret (created_id legacyCreated)
  else
    match plus90Minutes (cp_startsAtIso p) with
    | None => throw "Invalid time value"
    | Some endsAt =>
        let* v2Insert :=
          insertWithColumnFallback "radar_events_v2" (v2EventPayload p endsAt) (Some "id") in
        if created v2Insert then
          let* _ := insertWithColumnFallback "radar_participants_v2"
                      (hostParticipant (created_id v2Insert) (cp_userId p)) None in
          ret (created_id v2Insert)
        else
          throw (str_or (error_message legacyCreated)
                   (str_or (error_message v2Insert) "Gagal membuat radar"))
    end.

(** *** [joinRadarEvent] *)

(** [Array.isArray(d) ? d[0] : d], then [?.status?.toString().toUpperCase()]. *)
Definition rpc_status (d : jsdata) : option string :=
  let raw := match d with
             | DNull => None
             | DRow r => Some r
             | DRows l => head l
             end in
  match raw with
  | Some r => toUpperCase <$> toString_opt (get "status" r)
  | None => None
  end.

Definition membership_of (status : option string) : RadarMembershipStatus :=
  match status with
  | Some s => if String.eqb s "PENDING" then PENDING else JOINED
  | None => JOINED
  end.

(** The RPC error classes after which the direct insert is attempted. *)
Definition rpc_falls_back (msg : string) : bool :=
  isFunctionMissingError msg || isPermissionError msg ||
  isNotAuthenticatedError msg || isAmbiguousReferenceError msg.

Definition join_rpc (radarId userId : string) (source : RadarSource) : Request :=
  match source with
  | V2 => Rpc "radar_v2_join_event"
            {[ "p_radar_id" := VStr radarId; "p_force_join" := VBool false ]}
  | Legacy => Rpc "join_radar_event"
            {[ "p_radar_id" := VStr radarId; "p_user_id" := VStr userId ]}
  end.

Definition eventTable (source : RadarSource) : string :=
  match source with V2 => "radar_events_v2" | Legacy => "radar_events" end.

Definition primaryTable (source : RadarSource) : string :=
  match source with V2 => "radar_participants_v2" | Legacy => "radar_participants" end.

Definition secondaryTable (source : RadarSource) : string :=
  match source with V2 => "radar_participants" | Legacy => "radar_participants_v2" end.

Definition status_text (m : RadarMembershipStatus) : string :=
  match m with JOINED => "JOINED" | PENDING => "PENDING" end.

Definition memberParticipant (radarId userId : string) (m : RadarMembershipStatus) : payload :=
  {[ "radar_id" := VStr radarId; "user_id" := VStr userId;
     "role" := VStr "MEMBER"; "status" := VStr (status_text m) ]}.

(** [eventPolicy?.require_host_approval === true ? 'PENDING' : 'JOINED'] *)
Definition fallbackMembershipStatus (eventPolicy : jsdata) : RadarMembershipStatus :=
  match field "require_host_approval" eventPolicy with
  | VBool true => PENDING
  | _ => JOINED
  end.

(** The [for (const table of [primaryTable, secondaryTable])] loop. *)
Fixpoint join_inserts (tables : list string) (row : payload)
    (m : RadarMembershipStatus) : M Srv RadarMembershipStatus :=
  match tables with
  | [] => throw "Gagal bergabung ke radar. Cek kebijakan akses radar di Supabase."
  | table :: rest =>
      let* result := insertWithColumnFallback table row None in
      match error result with
      | None => ret m
      | Some _ => join_inserts rest row m
      end
  end.

(** The part of [joinRadarEvent] below the RPC branches. *)
Definition join_direct (radarId userId : string) (source : RadarSource)
    : M Srv RadarMembershipStatus :=
  let* policyWithApproval :=
    send respond (Select (eventTable source) "id, require_host_approval"
                    [("id", VStr radarId)]) in
  let* policy :=
    match r_error policyWithApproval with
    | Some e =>
        if isMissingColumnError (message e)
        then send respond (Select (eventTable source) "id" [("id", VStr radarId)])
        else ret policyWithApproval
    | None => ret policyWithApproval
    end in
  match r_error policy with
  | Some e =>
      if negb (isPermissionError (message e)) then throw (message e)
      else
        join_inserts [primaryTable source; secondaryTable source]
          (memberParticipant radarId userId (fallbackMembershipStatus (r_data policy)))
          (fallbackMembershipStatus (r_data policy))
  | None =>
      join_inserts [primaryTable source; secondaryTable source]
        (memberParticipant radarId userId (fallbackMembershipStatus (r_data policy)))
        (fallbackMembershipStatus (r_data policy))
  end.

Definition joinRadarEvent (radarId userId : string) (source : RadarSource)
    : M Srv RadarMembershipStatus :=
  let* rpc := send respond (join_rpc radarId userId source) in
  match r_error rpc with
  | None => ret (membership_of (rpc_status (r_data rpc)))
  | Some e =>
      if rpc_falls_back (message e)
      then join_direct radarId userId source
      else throw (message e)
  end.

(** *** [setCheckOutNow] *)

Definition archivePayload (nowIso : string) : payload :=
  {[ "status" := VStr "ARCHIVED"; "archived_at" := VStr nowIso;
     "updated_at" := VStr nowIso ]}.

Definition checkout_query (active : ActiveCheckIn) (userId : string) (working : payload) : Request :=
  Update (ac_table active) working [("id", VStr (ac_id active)); ("user_id", VStr userId)].

(** The [for] loop of [setCheckOutNow], with [attempts] iterations left. *)
Fixpoint checkout_loop (attempts : nat) (active : ActiveCheckIn) (userId : string)
    (workingPayload : payload) : M Srv unit :=
  match attempts with
  | O => throw "Gagal check-out sekarang."
  | S n =>
      let* result := send respond (checkout_query active userId workingPayload) in
      match r_error result with
      | None => ret tt
      | Some e =>
          let deletes :=
            match extractMissingColumnName (message e) with
            | Some missingColumn =>
                if nonempty missingColumn && js_in missingColumn workingPayload
                   && isMissingColumnError (message e)
                then Some missingColumn else None
            | None => None
            end in
          match deletes with
          | Some missingColumn =>
              checkout_loop n active userId (delete missingColumn workingPayload)
          | None =>
              if is_str "ARCHIVED" (get "status" workingPayload)
                 && shouldFallbackToFinishedStatus (message e)
              then checkout_loop n active userId (<["status" := VStr "FINISHED"]> workingPayload)
              else if isPermissionError (message e)
              then throw "Tidak punya izin check-out pada data check-in ini."
              else throw (message e)
          end
      end
  end.

Definition setCheckOutNow (nowIso : string) (userId : string) (active : ActiveCheckIn)
    : M Srv unit :=
  checkout_loop 8 active userId (archivePayload nowIso).

End Run.

End Page.

(** ** The smoke scripts

    [normalizeError], the classifiers and [extractMissingColumnName] have
    the same text in both scripts; the scripts differ in the ceiling of
    [insertWithColumnFallback] (10 in the check-in script, 12 in
    [smoke-radar-invite-two-users.mjs]). *)

Module Script.

Definition normalizeError (error : PgError) : string :=
  toLowerCase (message error +:+ " " +:+ details error).

Definition isMissingColumnError (error : PgError) : bool :=
  let msg := normalizeError error in
  includes msg "42703" ||
  (includes msg "column" && includes msg "does not exist") ||
  (includes msg "could not find" && includes msg "column").

Definition isMissingRelationError (error : PgError) : bool :=
  let msg := normalizeError error in
  includes msg "42p01" ||
  (includes msg "relation" && includes msg "does not exist") ||
  (includes msg "table" && includes msg "does not exist") ||
  includes msg "could not find the table".

Definition isPermissionError (error : PgError) : bool :=
  let msg := normalizeError error in
  includes msg "42501" ||
  includes msg "permission denied" ||
  includes msg "row-level security" ||
  includes msg "not authenticated".

Definition isEnumConstraintError (error : PgError) : bool :=
  let msg := normalizeError error in
  includes msg "invalid input value for enum" || includes msg "check constraint".

Definition extractMissingColumnName (error : PgError) : option string :=
  extract_column (message error).

(** The object literals the script functions return; a property that a
    literal leaves out is [false], [None] or [DNull] here. *)
Record Result := {
  ok : bool;
  missing : bool;
  permission : bool;
  skipped : bool;
  table : option string;
  data : jsdata;
  error : option PgError
}.

Definition inserted (t : string) (d : jsdata) : Result :=
  {| ok := true; missing := false; permission := false; skipped := false;
     table := Some t; data := d; error := None |}.

Definition insert_missing (t : string) (e : PgError) : Result :=
  {| ok := false; missing := true; permission := false; skipped := false;
     table := Some t; data := DNull; error := Some e |}.

Definition insert_denied (t : string) (e : PgError) : Result :=
  {| ok := false; missing := false; permission := true; skipped := false;
     table := Some t; data := DNull; error := Some e |}.

Definition insert_failed (t : string) (e : PgError) : Result :=
  {| ok := false; missing := false; permission := false; skipped := false;
     table := Some t; data := DNull; error := Some e |}.

Definition insert_exhausted (t : string) : Result :=
  insert_failed t {| message := "Gagal insert " +:+ t +:+ " setelah beberapa percobaan.";
                     details := "" |}.

Definition update_result (ok_ skipped_ permission_ : bool) (e : option PgError) : Result :=
  {| ok := ok_; missing := false; permission := permission_; skipped := skipped_;
     table := None; data := DNull; error := e |}.

Section Run.
Context {Srv : Type}.
Variable respond : Srv -> Request -> Response * Srv.

(** The [for] loop of [insertWithColumnFallback], [attempts] iterations
    left. *)
Fixpoint insert_loop (attempts : nat) (t : string) (selectColumns : string)
    (working : payload) : M Srv Result :=
  match attempts with
  | O => ret (insert_exhausted t)
  | S n =>
      let* result := send respond (Insert t working (Some selectColumns)) in
      match r_error result with
      | None => ret (inserted t (r_data result))
      | Some e =>
          if isMissingRelationError e then ret (insert_missing t e)
          else if isPermissionError e then ret (insert_denied t e)
          else if isMissingColumnError e then
            match extractMissingColumnName e with
            | Some missingColumn =>
                if nonempty missingColumn && js_in missingColumn working
                then insert_loop n t selectColumns (delete missingColumn working)
                else ret (insert_failed t e)
            | None => ret (insert_failed t e)
            end
          else ret (insert_failed t e)
      end
  end.

(** [archiveCheckInsByUser], check-in script. *)
Definition archive_query (t userId : string) (working : payload) : Request :=
  Update t working [("user_id", VStr userId); ("status", VStr "ACTIVE")].

Fixpoint archive_loop (attempts : nat) (t userId : string) (working : payload)
    : M Srv Result :=
  match attempts with
  | O => ret (update_result false false false
                (Some {| message := "Gagal mengarsipkan " +:+ t +:+ "."; details := "" |}))
  | S n =>
      let* result := send respond (archive_query t userId working) in
      match r_error result with
      | None => ret (update_result true false false None)
      | Some e =>
          if isMissingRelationError e then ret (update_result true true false None)
          else if isPermissionError e then ret (update_result false false true (Some e))
          else if is_str "ARCHIVED" (get "status" working) && isEnumConstraintError e
          then archive_loop n t userId (<["status" := VStr "FINISHED"]> working)
          else if isMissingColumnError e then
            match extractMissingColumnName e with
            | Some missingColumn =>
                if nonempty missingColumn && js_in missingColumn working
                then archive_loop n t userId (delete missingColumn working)
                else ret (update_result false false false (Some e))
            | None => ret (update_result false false false (Some e))
            end
          else ret (update_result false false false (Some e))
      end
  end.

Definition archiveCheckInsByUser (nowIso t userId : string) : M Srv Result :=
  archive_loop 10 t userId
    {[ "status" := VStr "ARCHIVED"; "archived_at" := VStr nowIso;
       "updated_at" := VStr nowIso ]}.

End Run.

(** The check-in smoke script. *)
Module Smoke.
Definition insertWithColumnFallback {Srv} (respond : Srv -> Request -> Response * Srv)
    (t : string) (payload_ : payload) (selectColumns : string) : M Srv Result :=
  insert_loop respond 10 t selectColumns payload_.
End Smoke.

(** [scripts/smoke-radar-invite-two-users.mjs]. *)
Module Invite.
Definition insertWithColumnFallback {Srv} (respond : Srv -> Request -> Response * Srv)
    (t : string) (payload_ : payload) (selectColumns : string) : M Srv Result :=
  insert_loop respond 12 t selectColumns payload_.
End Invite.

End Script.

(** ** [src/app/(main)/radar/[id]/page.tsx]

    The classifiers of this page first pass their argument through
    [readErrorMessage], which returns a string argument unchanged; the
    callers modelled here always pass [error.message]. *)

Module Detail.

Definition isMissingColumnError (message : string) : bool :=
  let lower := toLowerCase message in
  includes lower "42703" ||
  includes lower "does not exist" ||
  (includes lower "could not find" && includes lower "column").

Definition isMissingRelationError (message : string) : bool :=
  let lower := toLowerCase message in
  includes lower "42p01" ||
  (includes lower "relation" && includes lower "does not exist") ||
  (includes lower "table" && includes lower "does not exist") ||
  includes lower "could not find the table" ||
  (includes lower "schema cache" && (includes lower "table" || includes lower "relation")).

Definition isPermissionError (message : string) : bool :=
  let lower := toLowerCase message in
  includes lower "42501" ||
  includes lower "permission denied" ||
  includes lower "row-level security".

Definition extractMissingColumnName (message : string) : option string :=
  match message with
  | EmptyString => None
  | _ => extract_column message
  end.

Inductive RadarSource := Legacy | V2.

(** The parameter object of [updateParticipantDecision]. *)
Record DecisionParams := {
  radarId : string;
  targetUserId : string;
  actorId : string;
  source : RadarSource;
  approve : bool
}.

Definition nextStatus (approve_ : bool) : string :=
  if approve_ then "JOINED" else "REJECTED".

Definition decisionPayload (approve_ : bool) (nowIso : string) : payload :=
  if approve_ then
    {[ "status" := VStr (nextStatus approve_); "role" := VStr "MEMBER";
       "joined_at" := VStr nowIso; "left_at" := VNull; "kicked_at" := VNull ]}
  else {[ "status" := VStr (nextStatus approve_) ]}.

Definition decisionMatchers (p : DecisionParams) : list (string * value) :=
  [ ("radar_id", VStr (radarId p)); ("user_id", VStr (targetUserId p));
    ("status", VStr "PENDING") ].

Definition participantTables (src : RadarSource) : list string :=
  match src with
  | V2 => ["radar_participants_v2"; "radar_participants"]
  | Legacy => ["radar_participants"; "radar_participants_v2"]
  end.

Definition eventTable (src : RadarSource) : string :=
  match src with V2 => "radar_events_v2" | Legacy => "radar_events" end.

Definition notification (p : DecisionParams) : payload :=
  {[ "user_id" := VStr (targetUserId p);
     "type" := VStr (if approve p then "radar_join_approved" else "radar_join_rejected");
     "title" := VStr (if approve p then "Permintaan Join Disetujui" else "Permintaan Join Ditolak");
     "message" := VStr (if approve p
                        then "Host menyetujui permintaan Anda untuk bergabung ke radar."
                        else "Host menolak permintaan Anda untuk bergabung ke radar.");
     "sender_id" := VStr (actorId p);
     "actor_id" := VStr (actorId p);
     "data" := VObj (PCons "radar_id" (VStr (radarId p))
                      (PCons "status" (VStr (nextStatus (approve p))) PNil)) ]}.

Section Run.
Context {Srv : Type}.
Variable respond : Srv -> Request -> Response * Srv.

(** [updateWithColumnFallback]; the result is the [error] property. *)
Fixpoint update_loop (attempts : nat) (table : string) (working : payload)
    (matchers : list (string * value)) : M Srv (option PgError) :=
  match attempts with
  | O => ret (Some {| message := "Gagal update " +:+ table; details := "" |})
  | S n =>
      let* result := send respond (Update table working matchers) in
      match r_error result with
      | None => ret None
      | Some e =>
          match extractMissingColumnName (message e) with
          | Some missingColumn =>
              if nonempty missingColumn && js_in missingColumn working
                 && isMissingColumnError (message e)
              then update_loop n table (delete missingColumn working) matchers
              else ret (Some e)
          | None => ret (Some e)
          end
      end
  end.

Definition updateWithColumnFallback (table : string) (payload_ : payload)
    (matchers : list (string * value)) : M Srv (option PgError) :=
  update_loop 8 table payload_ matchers.

(** [insertWithColumnFallback] of this page: [upsert] when
    [options.onConflict] is given, [insert] otherwise. *)
Definition insert_query (table : string) (onConflict : option string) (working : payload) : Request :=
  match onConflict with
  | Some c => if nonempty c then Upsert table working c else Insert table working None
  | None => Insert table working None
  end.

Fixpoint insert_loop (attempts : nat) (table : string) (onConflict : option string)
    (working : payload) : M Srv (option PgError) :=
  match attempts with
  | O => ret (Some {| message := "Gagal insert/upsert " +:+ table; details := "" |})
  | S n =>
      let* result := send respond (insert_query table onConflict working) in
      match r_error result with
      | None => ret None
      | Some e =>
          match extractMissingColumnName (message e) with
          | Some missingColumn =>
              if nonempty missingColumn && js_in missingColumn working
                 && isMissingColumnError (message e)
              then insert_loop n table onConflict (delete missingColumn working)
              else ret (Some e)
          | None => ret (Some e)
          end
      end
  end.

Definition insertWithColumnFallback (table : string) (payload_ : payload)
    (onConflict : option string) : M Srv (option PgError) :=
  insert_loop 8 table onConflict payload_.

(** The [for (const table of participantTables)] loop of
    [updateParticipantDecision]; the result is [(updated, lastError)]. *)
Fixpoint decide_loop (tables : list string) (p : DecisionParams) (nowIso : string)
    (lastError : string) : M Srv (bool * string) :=
  match tables with
  | [] => ret (false, lastError)
  | table :: rest =>
      let* result := updateWithColumnFallback table
                       (decisionPayload (approve p) nowIso) (decisionMatchers p) in
      match result with
      | None => ret (true, lastError)
      | Some e =>
          if negb (isMissingColumnError (message e))
             && negb (isMissingRelationError (message e))
             && negb (isPermissionError (message e))
          then ret (false, message e)
          else decide_loop rest p nowIso (message e)
      end
  end.

(** The writes that follow an accepted decision. *)
Definition bridge_chat (p : DecisionParams) (nowIso : string) (eventRow : jsdata) : M Srv unit :=
  if approve p then
    match source p with
    | V2 =>
        let* chatGroup := send respond (Select "radar_chat_groups_v2" "id"
                                          [("radar_id", VStr (radarId p))]) in
        match toString_opt (field "id" (r_data chatGroup)) with
        | Some chatGroupId =>
            if nonempty chatGroupId then
              let* _ := insertWithColumnFallback "radar_chat_members_v2"
                          {[ "chat_group_id" := VStr chatGroupId;
                             "user_id" := VStr (targetUserId p);
                             "role" := VStr "MEMBER";
                             "status" := VStr "JOINED";
                             "joined_at" := VStr nowIso ]}
                          (Some "chat_group_id, user_id") in
              ret tt
            else ret tt
        | None => ret tt
        end
    | Legacy =>
        match toString_opt (field "chat_room_id" eventRow) with
        | Some chatRoomId =>
            if nonempty chatRoomId then
              let* _ := insertWithColumnFallback "chat_members"
                          {[ "chat_id" := VStr chatRoomId;
                             "user_id" := VStr (targetUserId p) ]}
                          (Some "chat_id, user_id") in
              ret tt
            else ret tt
        | None => ret tt
        end
    end
  else ret tt.

(** The event row of [updateParticipantDecision], selected with
    [chat_room_id] and, when that column is reported missing, without it. *)
Definition fetch_event (p : DecisionParams) : M Srv Response :=
  let* withChatRoom :=
    send respond (Select (eventTable (source p)) "id, creator_id, chat_room_id"
                    [("id", VStr (radarId p))]) in
  match r_error withChatRoom with
  | Some e =>
      if isMissingColumnError (message e)
      then send respond (Select (eventTable (source p)) "id, creator_id"
                           [("id", VStr (radarId p))])
      else ret withChatRoom
  | None => ret withChatRoom
  end.

(** [updateParticipantDecision] from the check of [eventError] on;
    [event] holds [eventRow] and [eventError]. *)
Definition decide_as_host (nowIso : string) (p : DecisionParams) (event : Response)
    : M Srv unit :=
  let eventRow := r_data event in
  match (match r_error event with
         | Some e => if isPermissionError (message e) then None else Some (message e)
         | None => None
         end) with
  | Some msg => throw msg
  | None =>
      if negb (truthy (field "id" eventRow))
         || negb (bool_decide (toString_opt (field "creator_id" eventRow) = Some (actorId p)))
      then throw "Hanya host yang boleh memproses peserta pending."
      else
        let* decided := decide_loop (participantTables (source p)) p nowIso "" in
        if negb decided.1 then
          throw (if nonempty decided.2 then decided.2
                 else "Gagal memperbarui status peserta.")
        else
          let* _ := bridge_chat p nowIso eventRow in
          let* _ := insertWithColumnFallback "notifications" (notification p) None in
          ret tt
  end.

Definition updateParticipantDecision (nowIso : string) (p : DecisionParams) : M Srv unit :=
  let* event := fetch_event p in
  decide_as_host nowIso p event.

End Run.

End Detail.

(** ** Vocabulary of the statements *)

(** One iteration of a retry loop either leaves the loop with an outcome
    or goes round again with a new working copy. *)
Inductive step (W R : Type) : Type :=
| Return (r : outcome R)
| Continue (w : W).
Arguments Return {W R} r.
Arguments Continue {W R} w.

Section Retry.
Context {W R : Type}.
Variable query : W -> Request.
Variable decide : W -> Response -> step W R.
Variable exhausted : outcome R.

(** [Runs n w l r]: a loop with [n] iterations left and working copy [w]
    performs the exchanges [l] and ends with [r]. *)
Inductive Runs : nat -> W -> list Exchange -> outcome R -> Prop :=
| runs_exhausted w :
    Runs 0 w [] exhausted
| runs_return n w rs r :
    decide w rs = Return r ->
    Runs (S n) w [(query w, rs)] r
| runs_continue n w rs w' l r :
    decide w rs = Continue w' ->
    Runs n w' l r ->
    Runs (S n) w ((query w, rs) :: l) r.
End Retry.

(** The column an error makes the page loops delete, if any: the guard
    [missingColumn && missingColumn in working && isMissingColumnError(..)]. *)
Definition page_deletes (working : payload) (msg : string) : option string :=
  match Page.extractMissingColumnName msg with
  | Some c =>
      if nonempty c && js_in c working && Page.isMissingColumnError msg
      then Some c else None
  | None => None
  end.

(** The branch one iteration of [Page.insertWithColumnFallback] takes. *)
Definition page_decide (working : payload) (rs : Response) : step payload Page.InsertResult :=
  match r_error rs with
  | None => Return (Ok {| Page.data := r_data rs; Page.error := None; Page.duplicate := false |})
  | Some e =>
      if Page.isDuplicateError (message e)
      then Return (Ok {| Page.data := r_data rs; Page.error := None; Page.duplicate := true |})
      else match page_deletes working (message e) with
           | Some c => Continue (delete c working)
           | None => Return (Ok {| Page.data := DNull; Page.error := Some e; Page.duplicate := false |})
           end
  end.

(** The guard [isMissingColumnError(e)] followed by
    [missingColumn && missingColumn in working] of the script loops. *)
Definition script_deletes (working : payload) (e : PgError) : option string :=
  if Script.isMissingColumnError e then
    match Script.extractMissingColumnName e with
    | Some c => if nonempty c && js_in c working then Some c else None
    | None => None
    end
  else None.

(** The branch one iteration of the scripts' [insertWithColumnFallback] takes. *)
Definition script_decide (t : string) (working : payload) (rs : Response)
    : step payload Script.Result :=
  match r_error rs with
  | None => Return (Ok (Script.inserted t (r_data rs)))
  | Some e =>
      if Script.isMissingRelationError e then Return (Ok (Script.insert_missing t e))
      else if Script.isPermissionError e then Return (Ok (Script.insert_denied t e))
      else match script_deletes working e with
           | Some c => Continue (delete c working)
           | None => Return (Ok (Script.insert_failed t e))
           end
  end.

(** Whether a loop with branch function [decide] went round again after an
    exchange (the request body is the working copy the iteration started
    with). *)
Definition goes_on {R} (decide : payload -> Response -> step payload R) (x : Exchange) : bool :=
  match decide (body_of x.1) x.2 with Continue _ => true | Return _ => false end.

Definition page_continues : Exchange -> bool := goes_on page_decide.

(** The query of one attempt of the scripts' [insertWithColumnFallback]. *)
Definition script_query (t sel : string) (working : payload) : Request :=
  Insert t working (Some sel).

Definition script_continues (t : string) : Exchange -> bool := goes_on (script_decide t).

(** The column names the failed exchanges of a log reported. *)
Definition reported_columns (l : list Exchange) : list string :=
  omap (fun x => e ← reported x; extract_column (message e)) l.

(** An exchange as the column-fallback property pictures it: if it failed,
    the error is a missing-column error and the extracted name is an own
    key of the request body. *)
Definition page_reports_present_column (x : Exchange) : bool :=
  match reported x with
  | None => true
  | Some e =>
      Page.isMissingColumnError (message e) &&
      match Page.extractMissingColumnName (message e) with
      | Some c => has_own c (body_of x.1)
      | None => false
      end
  end.

Definition script_reports_present_column (x : Exchange) : bool :=
  match reported x with
  | None => true
  | Some e =>
      Script.isMissingColumnError e &&
      match Script.extractMissingColumnName e with
      | Some c => has_own c (body_of x.1)
      | None => false
      end
  end.

(** The same, with the guards that precede the missing-column branch. *)
Definition page_not_duplicate (x : Exchange) : bool :=
  match reported x with
  | None => true
  | Some e => negb (Page.isDuplicateError (message e))
  end.

Definition script_not_short_circuited (x : Exchange) : bool :=
  match reported x with
  | None => true
  | Some e => negb (Script.isMissingRelationError e) && negb (Script.isPermissionError e)
  end.

(** A run returns at once on the errors [trigger] selects: whenever an
    exchange of the log failed with such an error, it is the last exchange
    and the run's result is [res] of it. *)
Definition returns_at_once {Srv A} (run : outcome A * list Exchange * Srv)
    (trigger : Request -> PgError -> bool) (res : Response -> PgError -> A) : Prop :=
  forall pre rq rs post e,
    log_of run = pre ++ (rq, rs) :: post ->
    r_error rs = Some e ->
    trigger rq e = true ->
    post = [] /\ result_of run = Ok (res rs e).

(** ** Scenario servers *)

(** A mock that answers with the queued responses, in order, and accepts
    every request once the queue is empty. *)
Definition accepted : Response := {| r_data := DNull; r_error := None |}.

Definition scripted (queue : list Response) (rq : Request) : Response * list Response :=
  match queue with
  | r :: rest => (r, rest)
  | [] => (accepted, [])
  end.

Definition failure (msg : string) : Response :=
  {| r_data := DNull; r_error := Some {| message := msg; details := "" |} |}.

Definition returned_row (id : string) : Response :=
  {| r_data := DRow {[ "id" := VStr id ]}; r_error := None |}.

(** The wording of PostgreSQL for a column an INSERT names in vain. *)
Definition pg_undefined_column (col rel : string) : string :=
  "column " +:+ quoted dq col +:+ " of relation " +:+ quoted dq rel +:+ " does not exist".

(** The wording of the REST layer for a column missing from its schema cache. *)
Definition schema_cache_miss (col rel : string) : string :=
  "Could not find the " +:+ quoted sq col +:+ " column of " +:+ quoted sq rel
  +:+ " in the schema cache".

(** Twelve columns, and the errors that report them one after the other. *)
Definition twelve_columns : list string :=
  [ "c01"; "c02"; "c03"; "c04"; "c05"; "c06"; "c07"; "c08"; "c09"; "c10"; "c11"; "c12" ].

Definition wide_payload : payload :=
  list_to_map ((fun c => (c, VNull)) <$> twelve_columns).

Definition each_column_missing : list Response :=
  (fun c => failure (schema_cache_miss c "radar_events")) <$> twelve_columns.

(** An exchange whose reported column, if any, is not a name inherited
    from [Object.prototype]. *)
Definition reports_no_inherited_name (x : Exchange) : bool :=
  match reported x with
  | None => true
  | Some e =>
      match extract_column (message e) with
      | Some c => negb (inherited c)
      | None => true
      end
  end.

(** Runs of the scenarios. *)
Definition smoke_undefined_column_run :=
  Script.Smoke.insertWithColumnFallback scripted "radar_participants"
    (Page.hostParticipant "r1" "u1") "id"
    [ failure (pg_undefined_column "status" "radar_participants") ].

Definition page_duplicate_and_column_run :=
  Page.insertWithColumnFallback scripted "radar_participants"
    (Page.hostParticipant "r1" "u1") None
    [ failure "column 'role' does not exist (request 23505)" ].

Definition page_undefined_column_run :=
  Page.insertWithColumnFallback scripted "radar_participants"
    (Page.hostParticipant "r1" "u1") None
    [ failure (pg_undefined_column "status" "radar_participants") ].

Definition page_missing_table_run :=
  Page.insertWithColumnFallback scripted "radar_events"
    (Page.hostParticipant "r1" "u1") None
    [ failure "relation 'public.radar_events' does not exist" ].

Definition page_inherited_name_run :=
  Page.insertWithColumnFallback scripted "radar_participants"
    (Page.hostParticipant "r1" "u1") None
    (replicate 8 (failure "column 'toString' does not exist")).

(** What the column-fallback property promises of a run with ceiling
    [ceiling], payload [P] and success result [success]: if fewer columns
    than the ceiling were reported, every request carries [P] minus the
    columns reported before it, the last request is accepted, its body is
    [P] minus all reported columns, and the run returns [success]. *)
Definition converges {Srv A} (run : outcome A * list Exchange * Srv) (ceiling : nat)
    (P : payload) (success : Response -> A) : Prop :=
  length (reported_columns (log_of run)) < ceiling ->
  (forall i x, log_of run !! i = Some x ->
     body_of x.1 = strip P (take i (reported_columns (log_of run)))) /\
  exists pre rq rs,
    log_of run = pre ++ [(rq, rs)] /\
    length pre = length (reported_columns (log_of run)) /\
    r_error rs = None /\
    body_of rq = strip P (reported_columns (log_of run)) /\
    (forall k, body_of rq !! k
               = if bool_decide (k ∈ reported_columns (log_of run)) then None else P !! k) /\
    result_of run = Ok (success rs).

Definition page_church_name_run :=
  Page.insertWithColumnFallback scripted "radar_events"
    {[ "title" := VStr "Misa Minggu"; "church_name" := VStr "Katedral" ]} (Some "id")
    [ failure (schema_cache_miss "church_name" "radar_events"); returned_row "ev1" ].

Definition invite_missing_table_run :=
  Script.Invite.insertWithColumnFallback scripted "radar_events"
    (Page.hostParticipant "r1" "u1") "id"
    [ failure "relation 'public.radar_events' does not exist" ].

(** *** The archive and check-out loops *)

(** The branch one iteration of [Page.setCheckOutNow] takes. *)
Definition checkout_decide (working : payload) (rs : Response) : step payload unit :=
  match r_error rs with
  | None => Return (Ok tt)
  | Some e =>
      match page_deletes working (message e) with
      | Some c => Continue (delete c working)
      | None =>
          if is_str "ARCHIVED" (get "status" working)
             && Page.shouldFallbackToFinishedStatus (message e)
          then Continue (<["status" := VStr "FINISHED"]> working)
          else if Page.isPermissionError (message e)
          then Return (Throw "Tidak punya izin check-out pada data check-in ini.")
          else Return (Throw (message e))
      end
  end.

(** The branch one iteration of [Script.archiveCheckInsByUser] takes. *)
Definition archive_decide (working : payload) (rs : Response) : step payload Script.Result :=
  match r_error rs with
  | None => Return (Ok (Script.update_result true false false None))
  | Some e =>
      if Script.isMissingRelationError e
      then Return (Ok (Script.update_result true true false None))
      else if Script.isPermissionError e
      then Return (Ok (Script.update_result false false true (Some e)))
      else if is_str "ARCHIVED" (get "status" working) && Script.isEnumConstraintError e
      then Continue (<["status" := VStr "FINISHED"]> working)
      else match script_deletes working e with
           | Some c => Continue (delete c working)
           | None => Return (Ok (Script.update_result false false false (Some e)))
           end
  end.

(** The [status] a request carries. *)
Definition status_of (x : Exchange) : value := get "status" (body_of x.1).

(** The number of substitutions a log shows: consecutive requests whose
    [status] goes from [ARCHIVED] to [FINISHED]. *)
Fixpoint substitutions (l : list Exchange) : nat :=
  match l with
  | x :: t =>
      match t with
      | y :: _ =>
          (if is_str "ARCHIVED" (status_of x) && is_str "FINISHED" (status_of y)
           then 1 else 0) + substitutions t
      | [] => 0
      end
  | [] => 0
  end.

(** The store rejects the status it is sent: the attempt fails with an
    error that reaches the enum guard when the status is [ARCHIVED] (no
    column is deleted first on the page; neither missing relation nor
    permission in the script), and with an error no later branch claims when
    the status has been replaced. *)
Definition checkout_rejects (x : Exchange) : bool :=
  match reported x with
  | None => false
  | Some e =>
      bool_decide (page_deletes (body_of x.1) (message e) = None)
      && negb (Page.isPermissionError (message e))
      && (if is_str "ARCHIVED" (status_of x)
          then Page.shouldFallbackToFinishedStatus (message e)
          else true)
  end.

Definition archive_rejects (x : Exchange) : bool :=
  match reported x with
  | None => false
  | Some e =>
      negb (Script.isMissingRelationError e)
      && negb (Script.isPermissionError e)
      && (if is_str "ARCHIVED" (status_of x)
          then Script.isEnumConstraintError e
          else bool_decide (script_deletes (body_of x.1) e = None))
  end.

(** What the enum fallback amounts to for a run that starts from the
    payload [P] and surfaces a final error through [surface]: the log shows
    at most one substitution; an attempt whose status is [ARCHIVED] and that
    [goes] to the substitution branch is followed, when another attempt
    follows, by the same payload with [FINISHED]; and when the store rejects
    every status it is sent, the run is exactly two requests long and ends
    with the second error. *)
Definition substitutes_once {Srv A} (run : outcome A * list Exchange * Srv)
    (P : payload) (rejects : Exchange -> bool) (surface : PgError -> outcome A) : Prop :=
  substitutions (log_of run) <= 1 /\
  (forall pre x y post,
     log_of run = pre ++ x :: y :: post ->
     is_str "ARCHIVED" (status_of x) = true ->
     rejects x = true ->
     body_of y.1 = <["status" := VStr "FINISHED"]> (body_of x.1)) /\
  (forallb rejects (log_of run) = true ->
   exists x1 x2 e2,
     log_of run = [x1; x2] /\
     body_of x1.1 = P /\
     body_of x2.1 = <["status" := VStr "FINISHED"]> P /\
     reported x2 = Some e2 /\
     result_of run = surface e2).

(** The wording of PostgreSQL for a value outside an enum type. *)
Definition pg_invalid_enum (ty val : string) : string :=
  "invalid input value for enum " +:+ ty +:+ ": " +:+ quoted dq val.

Definition checkout_rejected_run :=
  Page.setCheckOutNow scripted "2026-02-19T10:00:00.000Z" "u1"
    {| Page.ac_id := "c1"; Page.ac_table := "mass_checkins" |}
    [ failure (pg_invalid_enum "checkin_status" "ARCHIVED");
      failure (pg_invalid_enum "checkin_status" "FINISHED") ].

Definition archive_rejected_run :=
  Script.archiveCheckInsByUser scripted "2026-02-19T10:00:00.000Z" "mass_checkins" "u1"
    [ failure (pg_invalid_enum "checkin_status" "ARCHIVED");
      failure (pg_invalid_enum "checkin_status" "FINISHED") ].

Definition checkout_rejected_once_run :=
  Page.setCheckOutNow scripted "2026-02-19T10:00:00.000Z" "u1"
    {| Page.ac_id := "c1"; Page.ac_table := "mass_checkins" |}
    [ failure (pg_invalid_enum "checkin_status" "ARCHIVED") ].

(** *** Orchestration: which table a request goes to *)

Definition inserts_into (table : string) (x : Exchange) : Prop :=
  exists body select, x.1 = Insert table body select.

(** The page's own notion of an insert that worked ([result.error] of
    [insertWithColumnFallback] is null): the store accepted it, or it
    answered with a duplicate-key error. *)
Definition insert_accepted (rs : Response) : bool :=
  match r_error rs with
  | None => true
  | Some e => Page.isDuplicateError (message e)
  end.

(** The body of the first request of a phase. *)
Definition first_body (l : list Exchange) : option payload :=
  (fun x => body_of x.1) <$> head l.

(** The response to the last request of a phase was an accepted insert,
    or was not. *)
Definition ends_accepted (l : list Exchange) (b : bool) : Prop :=
  exists rq rs, last l = Some (rq, rs) /\ insert_accepted rs = b.

(** The id of the created row as [createRadarEvent] reads it off a
    response ([!r.error && r.data?.id], then [r.data.id.toString()]);
    [None] when the response does not count as a creation. *)
Definition returned_id (rs : Response) : option string :=
  if insert_accepted rs && truthy (field "id" (r_data rs))
  then toString_opt (field "id" (r_data rs))
  else None.

Definition is_select (x : Exchange) : bool :=
  match x.1 with Select _ _ _ => true | _ => false end.

(** The event row [joinRadarEvent] decides on: [data] of the last
    [select] the call issued. *)
Definition event_policy (l : list Exchange) : jsdata :=
  match last (filter (fun x => is_select x = true) l) with
  | Some x => r_data x.2
  | None => DNull
  end.

(** The shape of a call of [joinRadarEvent] that reaches the direct
    insert: the RPC failed with an error of a falling-back class, the event
    row was selected, and the status [m] the selected row dictates (PENDING
    exactly when its [require_host_approval] is [true]) was inserted into
    the participant table of the event's generation, [own]; if that loop
    ended in success the call returns [m]; if it ended in failure the same
    row went to the table of the other generation, [other], and the call
    returns [m] when that loop ended in success and throws otherwise. *)
Definition join_fallback_shape {Srv} (run : outcome Page.RadarMembershipStatus * list Exchange * Srv)
    (radarId userId : string) (source : Page.RadarSource) : Prop :=
  exists rpc e selects own other m,
    log_of run = (Page.join_rpc radarId userId source, rpc) :: selects ++ own ++ other /\
    r_error rpc = Some e /\
    Page.rpc_falls_back (message e) = true /\
    Forall (fun y => is_select y = true) selects /\
    m = Page.fallbackMembershipStatus (event_policy (log_of run)) /\
    (m = Page.PENDING <->
     field "require_host_approval" (event_policy (log_of run)) = VBool true) /\
    Forall (inserts_into (Page.primaryTable source)) own /\
    first_body own = Some (Page.memberParticipant radarId userId m) /\
    ((ends_accepted own true /\ other = [] /\ result_of run = Ok m)
     \/
     (ends_accepted own false /\
      Forall (inserts_into (Page.secondaryTable source)) other /\
      first_body other = Some (Page.memberParticipant radarId userId m) /\
      ((ends_accepted other true /\ result_of run = Ok m)
       \/
       (ends_accepted other false /\ exists msg, result_of run = Throw msg)))).

(** A store without the join procedure and with a closed legacy
    participants table, for an event that asks for host approval. *)
Definition join_crossing_run :=
  Page.joinRadarEvent scripted "r1" "u1" Page.Legacy
    [ failure "Could not find the function public.join_radar_event in the schema cache";
      {| r_data := DRow {[ "id" := VStr "r1"; "require_host_approval" := VBool true ]};
         r_error := None |};
      failure "new row violates row-level security policy for table radar_participants";
      accepted ].

(** A store where only the second table generation is deployed. *)
Definition create_on_v2_run :=
  Page.createRadarEvent scripted (fun iso => Some "2026-02-19T11:30:00.000Z")
    {| Page.cp_userId := "u1"; Page.cp_churchId := "ch1"; Page.cp_churchName := None;
       Page.cp_title := "Misa Minggu"; Page.cp_description := "";
       Page.cp_startsAtIso := "2026-02-19T10:00:00.000Z";
       Page.cp_maxParticipants := None; Page.cp_allowMemberInvite := None;
       Page.cp_requireHostApproval := None; Page.cp_massScheduleId := None |}
    [ failure "relation 'public.radar_events' does not exist"; returned_row "ev2" ].

(** *** The host decision *)

(** The column an error makes the loops of the detail page delete. *)
Definition detail_deletes (working : payload) (msg : string) : option string :=
  match Detail.extractMissingColumnName msg with
  | Some c =>
      if nonempty c && js_in c working && Detail.isMissingColumnError msg
      then Some c else None
  | None => None
  end.

(** The branch one iteration of [Detail.updateWithColumnFallback] and of
    [Detail.insertWithColumnFallback] takes. *)
Definition detail_decide (working : payload) (rs : Response)
    : step payload (option PgError) :=
  match r_error rs with
  | None => Return (Ok None)
  | Some e =>
      match detail_deletes working (message e) with
      | Some c => Continue (delete c working)
      | None => Return (Ok (Some e))
      end
  end.

(** The query of one attempt of [Detail.updateWithColumnFallback]. *)
Definition detail_update_query (table : string) (matchers : list (string * value))
    (working : payload) : Request :=
  Update table working matchers.

(** Equality of values as a filter [column = value] sees it; objects never
    compare equal. *)
Definition value_eqb (a b : value) : bool :=
  match a, b with
  | VNull, VNull => true
  | VBool x, VBool y => Bool.eqb x y
  | VNum x, VNum y => Z.eqb x y
  | VStr x, VStr y => String.eqb x y
  | _, _ => false
  end.

(** The store side of [update(body).eq(k1, v1).eq(k2, v2)...]: a row is
    touched when every filter holds of it, and then takes the columns of
    [body]. *)
Definition pg_matches (matchers : list (string * value)) (row : payload) : bool :=
  forallb (fun kv => match row !! kv.1 with
                     | Some v => value_eqb v kv.2
                     | None => false
                     end) matchers.

Definition pg_update (body : payload) (matchers : list (string * value)) (row : payload)
    : payload :=
  if pg_matches matchers row then body ∪ row else row.

(** What a request, if the store carries it out, makes of a row [row]
    already stored in table [t].  [None]: the request may rewrite the row
    in a way its text does not determine (an upsert into [t], a remote
    procedure). *)
Definition row_after (rq : Request) (t : string) (row : payload) : option payload :=
  match rq with
  | Update t' body matchers =>
      Some (if String.eqb t' t then pg_update body matchers row else row)
  | Upsert t' _ _ => if String.eqb t' t then None else Some row
  | Insert _ _ _ | Select _ _ _ => Some row
  | Rpc _ _ => None
  end.

Definition participant_tables : list string :=
  [ "radar_participants"; "radar_participants_v2" ].

(** The requests [updateParticipantDecision] may issue. *)
Definition decision_request (p : Detail.DecisionParams) (nowIso : string) (rq : Request)
    : Prop :=
  match rq with
  | Update t body matchers =>
      t ∈ participant_tables /\
      matchers = Detail.decisionMatchers p /\
      body ⊆ Detail.decisionPayload (Detail.approve p) nowIso
  | Insert t _ _ | Upsert t _ _ => t ∉ participant_tables
  | Select _ _ _ => True
  | Rpc _ _ => False
  end.

(** A host approves a pending member of a legacy event. *)
Definition approve_pending_run :=
  Detail.updateParticipantDecision scripted "2026-02-19T10:00:00.000Z"
    {| Detail.radarId := "r1"; Detail.targetUserId := "u2"; Detail.actorId := "u1";
       Detail.source := Detail.Legacy; Detail.approve := true |}
    [ {| r_data := DRow {[ "id" := VStr "r1"; "creator_id" := VStr "u1" ]};
         r_error := None |} ].

(** * Proofs *)

(** ** Substring search and case folding *)


Lemma startsWith_spec p s : startsWith p s = true <-> exists post, s = p +:+ post.
Proof.
  revert s. induction p as [|a p IH]; intros s; simpl.
  - split; [eauto | done].
  - destruct s as [|b s].
    + split; [discriminate | intros [post H]; discriminate].
    + rewrite andb_true_iff, IH. split.
      * intros [->%Ascii.eqb_eq [post ->]]. eauto.
      * intros [post [= -> ->]]. split; [apply Ascii.eqb_refl | eauto].
Qed.

Lemma includes_spec s p : includes s p = true <-> exists pre post, s = pre +:+ p +:+ post.
Proof.
  induction s as [|c s IH]; simpl.
  - rewrite orb_false_r, startsWith_spec. split.
    + intros [post ->]. by exists "", post.
    + intros (pre & post & H). destruct pre; [eauto | discriminate].
  - rewrite orb_true_iff, startsWith_spec, IH. split.
    + intros [[post ->] | (pre & post & ->)].
      * by exists "", post.
      * by exists (String c pre), post.
    + intros (pre & post & H). destruct pre as [|c' pre]; simpl in H.
      * left. eauto.
      * injection H as -> ->. right. eauto.
Qed.

Lemma toLowerCase_app a b : toLowerCase (a +:+ b) = toLowerCase a +:+ toLowerCase b.
Proof. induction a as [|c a IH]; simpl; [done | by rewrite IH]. Qed.

Lemma toLowerCase_split m a b :
  toLowerCase m = a +:+ b ->
  exists x y, m = x +:+ y /\ toLowerCase x = a /\ toLowerCase y = b.
Proof.
  revert m. induction a as [|c a IH]; intros m H; simpl in H.
  - by exists "", m.
  - destruct m as [|d m]; [discriminate|]. simpl in H. injection H as Hc Hm.
    destruct (IH _ Hm) as (x & y & -> & <- & <-).
    exists (String d x), y. simpl. by rewrite Hc.
Qed.

Lemma lower_ascii_idemp c : lower_ascii (lower_ascii c) = lower_ascii c.
Proof.
  destruct c as [[] [] [] [] [] [] [] []]; reflexivity.
Qed.

Lemma toLowerCase_idemp s : toLowerCase (toLowerCase s) = toLowerCase s.
Proof. induction s as [|c s IH]; simpl; [done | by rewrite lower_ascii_idemp, IH]. Qed.

(** [lower.includes(sig)] for a lower-case literal [sig] is containment
    of [sig], letter case aside. *)
Lemma includes_lower_contains m sig :
  toLowerCase sig = sig ->
  includes (toLowerCase m) sig = true <-> contains_ci m sig.
Proof.
  intros Hsig. rewrite includes_spec. unfold contains_ci. split.
  - intros (a & b & H).
    apply toLowerCase_split in H as (pre & rest & -> & <- & H).
    apply toLowerCase_split in H as (mid & post & -> & Hmid & <-).
    exists pre, mid, post. by rewrite Hsig.
  - intros (pre & mid & post & -> & Hmid).
    exists (toLowerCase pre), (toLowerCase post).
    by rewrite !toLowerCase_app, Hmid, Hsig.
Qed.

Lemma string_app_assoc a b c : (a +:+ b) +:+ c = a +:+ (b +:+ c).
Proof.
  induction a as [|x a IH]; [reflexivity|].
  change (String x ((a +:+ b) +:+ c) = String x (a +:+ b +:+ c)). by rewrite IH.
Qed.

Lemma contains_ci_app_l m rest sig : contains_ci m sig -> contains_ci (m +:+ rest) sig.
Proof.
  intros (pre & mid & post & -> & H). exists pre, mid, (post +:+ rest).
  split; [|done]. by rewrite !string_app_assoc.
Qed.

(** C7 (amended) -- the permission classifiers.  In the smoke scripts
    [isPermissionError] is true exactly when the text [message details]
    contains, letter case aside, one of [42501], [permission denied],
    [row-level security], [not authenticated]; in particular it is true
    whenever the message alone contains one of them.  On the two radar pages
    [isPermissionError] is true exactly when the message contains one of the
    first three; [not authenticated] is the business of
    [isNotAuthenticatedError], and the disjunction of the two classifiers is
    true exactly on the four signals. *)
Theorem permission_classifier_signals :
  (forall e : PgError,
     Script.isPermissionError e = true <->
     contains_ci (message e +:+ " " +:+ details e) "42501" \/
     contains_ci (message e +:+ " " +:+ details e) "permission denied" \/
     contains_ci (message e +:+ " " +:+ details e) "row-level security" \/
     contains_ci (message e +:+ " " +:+ details e) "not authenticated")
  /\
  (forall e : PgError,
     contains_ci (message e) "42501" \/
     contains_ci (message e) "permission denied" \/
     contains_ci (message e) "row-level security" \/
     contains_ci (message e) "not authenticated" ->
     Script.isPermissionError e = true)
  /\
  (forall m : string,
     Page.isPermissionError m = true <->
     contains_ci m "42501" \/
     contains_ci m "permission denied" \/
     contains_ci m "row-level security")
  /\
  (forall m : string,
     Detail.isPermissionError m = true <->
     contains_ci m "42501" \/
     contains_ci m "permission denied" \/
     contains_ci m "row-level security")
  /\
  (forall m : string,
     Page.isPermissionError m || Page.isNotAuthenticatedError m = true <->
     contains_ci m "42501" \/
     contains_ci m "permission denied" \/
     contains_ci m "row-level security" \/
     contains_ci m "not authenticated").
Proof.
  assert (forall e : PgError,
     Script.isPermissionError e = true <->
     contains_ci (message e +:+ " " +:+ details e) "42501" \/
     contains_ci (message e +:+ " " +:+ details e) "permission denied" \/
     contains_ci (message e +:+ " " +:+ details e) "row-level security" \/
     contains_ci (message e +:+ " " +:+ details e) "not authenticated") as Hscript.
  { intros e. unfold Script.isPermissionError, Script.normalizeError.
    rewrite !orb_true_iff, !includes_lower_contains by reflexivity. tauto. }
  split; [exact Hscript|]. split; [|split; [|split]].
  - intros e H. apply Hscript.
    destruct H as [H|[H|[H|H]]]; [left|right; left|right; right; left|right; right; right];
      by apply contains_ci_app_l.
  - intros m. unfold Page.isPermissionError.
    rewrite !orb_true_iff, !includes_lower_contains by reflexivity. tauto.
  - intros m. unfold Detail.isPermissionError.
    rewrite !orb_true_iff, !includes_lower_contains by reflexivity. tauto.
  - intros m. unfold Page.isPermissionError, Page.isNotAuthenticatedError.
    rewrite !orb_true_iff, !includes_lower_contains by reflexivity. tauto.
Qed.

(** C7, as stated, fails: the pages' [isPermissionError] is false on a
    message that says [not authenticated], and the scripts' one is true on an
    error whose message carries no signal when its [details] do. *)
Lemma permission_classifier_as_stated_fails :
  (contains_ci "JWT expired: Not Authenticated" "not authenticated" /\
   Page.isPermissionError "JWT expired: Not Authenticated" = false /\
   Detail.isPermissionError "JWT expired: Not Authenticated" = false)
  /\
  (~ contains_ci "request failed" "42501" /\
   ~ contains_ci "request failed" "permission denied" /\
   ~ contains_ci "request failed" "row-level security" /\
   ~ contains_ci "request failed" "not authenticated" /\
   Script.isPermissionError
     {| message := "request failed"; details := "permission denied for table radar_events" |}
   = true).
Proof.
  split.
  - split; [|split; vm_compute; reflexivity].
    apply includes_lower_contains; vm_compute; reflexivity.
  - repeat split; try (vm_compute; reflexivity);
      intros H; apply includes_lower_contains in H; try reflexivity;
      vm_compute in H; discriminate.
Qed.

(** ** Retry loops in general *)
Section RetryFacts.
Context {W R : Type}.
Variable query : W -> Request.
Variable decide : W -> Response -> step W R.
Variable exhausted : outcome R.
Abbreviation Runs := (Runs query decide exhausted).

Lemma Runs_length n w l r : Runs n w l r -> length l <= n.
Proof. induction 1; simpl; lia. Qed.

Lemma Runs_nonempty n w l r : Runs (S n) w l r -> l <> [].
Proof. inversion 1; discriminate. Qed.

(** Every suffix of a run is the run of the loop from the working copy
    it had reached. *)
Lemma Runs_suffix n w pre x post r :
  Runs n w (pre ++ x :: post) r ->
  exists m w', Runs m w' (x :: post) r /\ n = length pre + m.
Proof.
  revert n w. induction pre as [|y pre IH]; intros n w H; simpl in *.
  - exists n, w. split; [done | lia].
  - inversion H as [ | ? ? ? ? ? Hl | ? ? ? ? ? ? ? Hr ]; subst.
    + destruct pre; discriminate.
    + destruct (IH _ _ Hr) as (m & w'' & Hr' & ->).
      exists m, w''. split; [done | simpl; lia].
Qed.

(** The exchange at the head of a run decides how the run goes on. *)
Lemma Runs_head n w x post r :
  Runs n w (x :: post) r ->
  x.1 = query w /\
  match decide w x.2 with
  | Return r' => post = [] /\ r = r'
  | Continue w' => exists m, n = S m /\ Runs m w' post r
  end.
Proof.
  inversion 1 as [ | ? ? ? ? Hd | ? ? ? ? ? ? Hd Hr ]; subst; simpl;
    (split; [done | rewrite Hd]); eauto.
Qed.
End RetryFacts.


Create HintDb branches.
#[local] Hint Unfold page_decide page_deletes script_decide script_deletes : branches.

(** Leaving a loop: the iteration returned. *)
Ltac run_returns :=
  unfold result_of, log_of; simpl;
  lazymatch goal with
  | |- Runs ?q ?d ?e (S ?n) ?w _ _ => refine (runs_return q d e n w _ _ _)
  end;
  autounfold with branches;
  repeat match goal with H : _ = _ |- _ => rewrite H end; reflexivity.

(** Going round: the iteration continued, the rest is the recursive call. *)
Ltac run_continues IH :=
  match goal with
  | |- context [let (_, _) := ?call in _] =>
      let H := fresh "Hrest" in
      pose proof IH as H;
      unfold result_of, log_of in H |- *;
      destruct call as [[? ?] ?]; simpl in H |- *;
      lazymatch goal with
      | |- Runs ?q ?d ?e (S ?n) ?w _ _ => refine (runs_continue q d e n w _ _ _ _ _ H)
      end;
      autounfold with branches;
      repeat match goal with H : _ = _ |- _ => rewrite H end; reflexivity
  end.

Lemma page_insert_runs {Srv} (respond : Srv -> Request -> Response * Srv) n table sel w s :
  Runs (Page.insert_query table sel) page_decide (Ok (Page.exhausted table)) n w
    (log_of (Page.insert_loop respond n table sel w s))
    (result_of (Page.insert_loop respond n table sel w s)).
Proof.
  revert w s. induction n as [|n IH]; intros w s.
  - constructor.
  - simpl. unfold bind, send.
    destruct (respond s (Page.insert_query table sel w)) as [rs s1] eqn:E.
    destruct (r_error rs) as [e|] eqn:Ee; [|run_returns].
    destruct (Page.isDuplicateError (message e)) eqn:Ed; [run_returns|].
    destruct (Page.extractMissingColumnName (message e)) as [c|] eqn:Ex; [|run_returns].
    destruct (nonempty c && js_in c w && Page.isMissingColumnError (message e)) eqn:Eg;
      [|run_returns].
    run_continues (IH (delete c w) s1).
Qed.

Lemma script_insert_runs {Srv} (respond : Srv -> Request -> Response * Srv) n t sel w s :
  Runs (script_query t sel) (script_decide t) (Ok (Script.insert_exhausted t)) n w
    (log_of (Script.insert_loop respond n t sel w s))
    (result_of (Script.insert_loop respond n t sel w s)).
Proof.
  revert w s. induction n as [|n IH]; intros w s.
  - constructor.
  - simpl. unfold bind, send.
    destruct (respond s (Insert t w (Some sel))) as [rs s1] eqn:E.
    destruct (r_error rs) as [e|] eqn:Ee; [|run_returns].
    destruct (Script.isMissingRelationError e) eqn:Er; [run_returns|].
    destruct (Script.isPermissionError e) eqn:Ep; [run_returns|].
    destruct (Script.isMissingColumnError e) eqn:Ec; [|run_returns].
    destruct (Script.extractMissingColumnName e) as [c|] eqn:Ex; [|run_returns].
    destruct (nonempty c && js_in c w) eqn:Eg; [|run_returns].
    run_continues (IH (delete c w) s1).
Qed.

(** ** The extracted column name is never empty *)

Lemma capture_until_nonempty stop s cap rest :
  capture_until stop s = Some (cap, rest) -> cap <> "".
Proof.
  unfold capture_until.
  destruct (take_while _ s); [discriminate|].
  destruct (drop_while _ s); [discriminate|].
  intros [= <- _]. discriminate.
Qed.

Lemma search_some {A} (at_ : string -> option A) s x :
  search at_ s = Some x -> exists t, at_ t = Some x.
Proof.
  induction s as [|c s IH]; simpl.
  - destruct (at_ "") eqn:E; [intros [= <-]; eauto | discriminate].
  - destruct (at_ (String c s)) eqn:E; [intros [= <-]; eauto | auto].
Qed.

Lemma column_quoted_at_nonempty q s c : column_quoted_at q s = Some c -> c <> "".
Proof.
  unfold column_quoted_at.
  destruct (strip_ci "column" s) as [[|a r]|]; try discriminate.
  destruct (is_space a); [|discriminate].
  destruct (drop_while is_space r) as [|b r']; [discriminate|].
  destruct (Ascii.eqb b q); [|discriminate].
  destruct (capture_until _ r') as [[cap rest]|] eqn:E; [|discriminate].
  intros [= <-]. eapply capture_until_nonempty, E.
Qed.

Lemma schema_cache_at_nonempty s c : schema_cache_at s = Some c -> c <> "".
Proof.
  unfold schema_cache_at.
  destruct (strip_ci "could not find the " s) as [[|a r]|]; try discriminate.
  destruct (is_quote a); [|discriminate].
  destruct (capture_until _ r) as [[cap rest]|] eqn:E; [|discriminate].
  destruct (strip_ci " column" rest); [|discriminate].
  intros [= <-]. eapply capture_until_nonempty, E.
Qed.

Lemma extract_column_nonempty m c : extract_column m = Some c -> nonempty c = true.
Proof.
  unfold extract_column, nonempty. intros H.
  assert (c <> "") as Hc.
  { destruct (search (column_quoted_at dq) m) eqn:E1.
    - injection H as ->. apply search_some in E1 as [t Ht].
      eapply column_quoted_at_nonempty, Ht.
    - destruct (search (column_quoted_at sq) m) eqn:E2.
      + injection H as ->. apply search_some in E2 as [t Ht].
        eapply column_quoted_at_nonempty, Ht.
      + apply search_some in H as [t Ht]. eapply schema_cache_at_nonempty, Ht. }
  destruct (String.eqb_spec c ""); [contradiction | reflexivity].
Qed.

(** ** Facts about [strip] *)

Lemma strip_cons (P : payload) c cols : strip P (c :: cols) = strip (delete c P) cols.
Proof. reflexivity. Qed.

Lemma strip_lookup (P : payload) cols k :
  strip P cols !! k = if bool_decide (k ∈ cols) then None else P !! k.
Proof.
  revert P. induction cols as [|c cols IH]; intros P.
  - rewrite bool_decide_eq_false_2; [done | apply not_elem_of_nil].
  - rewrite strip_cons, IH.
    destruct (decide (k = c)) as [->|Hne].
    + rewrite lookup_delete_eq, (bool_decide_eq_true_2 (c ∈ c :: cols)) by left.
      by destruct (bool_decide (c ∈ cols)).
    + rewrite lookup_delete_ne by done.
      assert (bool_decide (k ∈ c :: cols) = bool_decide (k ∈ cols)) as ->; [|done].
      apply bool_decide_ext. rewrite elem_of_cons.
      split; [intros [Hk|Hk]; [contradiction | exact Hk] | intros Hk; by right].
Qed.

(** ** Loops whose working copy is the request body *)

Section PayloadLoops.
Context {R : Type}.
Variable query : payload -> Request.
Variable decide : payload -> Response -> step payload R.
Variable exhausted : outcome R.
Hypothesis body_query : forall w, body_of (query w) = w.
Abbreviation Run := (Runs query decide exhausted).

(** A loop whose every iteration goes round again uses up its attempts. *)
Lemma Runs_all_continue n w l r :
  Run n w l r -> forallb (goes_on decide) l = true -> length l = n /\ r = exhausted.
Proof.
  induction 1 as [w | n w rs r Hd | n w rs w' l r Hd Hr IH]; simpl.
  - done.
  - unfold goes_on; simpl. rewrite body_query, Hd. discriminate.
  - intros [_ Hl]%andb_prop. destruct (IH Hl) as [-> ->]. done.
Qed.

(** An exchange on which the iteration returns is the last one. *)
Lemma Runs_returns_at n w pre x post r r0 :
  Run n w (pre ++ x :: post) r ->
  decide (body_of x.1) x.2 = Return r0 ->
  post = [] /\ r = r0.
Proof.
  intros (m & w' & Hr & _)%Runs_suffix Hd.
  apply Runs_head in Hr as [Hq Hr].
  rewrite Hq, body_query in Hd. rewrite Hd in Hr. done.
Qed.

(** Column fallback: while every failure is one the loop answers by
    deleting the extracted column, the run ends with an accepted request
    whose body is the payload minus the reported columns. *)
Variable good : Exchange -> bool.
Variable success : Response -> outcome R.
Hypothesis decide_accepted :
  forall w rs, r_error rs = None -> decide w rs = Return (success rs).
Hypothesis decide_good :
  forall w rs e, r_error rs = Some e -> good (query w, rs) = true ->
    exists c, extract_column (message e) = Some c /\ decide w rs = Continue (delete c w).

Lemma reported_columns_cons_failed x l e c :
  reported x = Some e -> extract_column (message e) = Some c ->
  reported_columns (x :: l) = c :: reported_columns l.
Proof. unfold reported_columns; simpl. intros -> ; simpl. by intros ->. Qed.

Lemma reported_columns_cons_accepted x l :
  reported x = None -> reported_columns (x :: l) = reported_columns l.
Proof. unfold reported_columns; simpl. by intros ->. Qed.

Lemma Runs_converges n w l r :
  Run n w l r ->
  forallb good l = true ->
  length (reported_columns l) < n ->
  exists pre rq rs,
    l = pre ++ [(rq, rs)] /\ r_error rs = None /\
    body_of rq = strip w (reported_columns l) /\
    r = success rs /\ length pre = length (reported_columns l).
Proof.
  induction 1 as [w | n w rs r Hd | n w rs w' l r Hd Hr IH].
  - simpl. lia.
  - intros [Hg _]%andb_prop _.
    destruct (r_error rs) as [e|] eqn:Ee.
    + destruct (decide_good _ _ _ Ee Hg) as (c & _ & Hc). congruence.
    + exists [], (query w), rs.
      rewrite reported_columns_cons_accepted by done.
      rewrite decide_accepted in Hd by done.
      rewrite body_query. repeat split; congruence.
  - intros [Hg Hl]%andb_prop.
    destruct (r_error rs) as [e|] eqn:Ee.
    + destruct (decide_good _ _ _ Ee Hg) as (c & Hx & Hc).
      assert (w' = delete c w) as -> by congruence.
      rewrite (reported_columns_cons_failed _ _ e c) by done.
      intros Hlen. simpl in Hlen.
      destruct (IH Hl ltac:(lia)) as (pre & rq & rs' & -> & He & Hb & -> & Hp).
      exists ((query w, rs) :: pre), rq, rs'.
      rewrite strip_cons. simpl. repeat split; auto.
    + rewrite decide_accepted in Hd by done. discriminate.
Qed.
(** Each request carries the payload minus the columns reported so far. *)
Lemma Runs_bodies n w l r :
  Run n w l r ->
  forallb good l = true ->
  forall i x, l !! i = Some x -> body_of x.1 = strip w (take i (reported_columns l)).
Proof.
  induction 1 as [w | n w rs r Hd | n w rs w' l r Hd Hr IH]; intros Hg i x Hi.
  - done.
  - destruct i as [|i]; [|done]. injection Hi as <-. simpl. apply body_query.
  - destruct i as [|i]; simpl in Hi.
    + injection Hi as <-. simpl. apply body_query.
    + apply andb_prop in Hg as [Hg Hl].
      destruct (r_error rs) as [e|] eqn:Ee.
      * destruct (decide_good _ _ _ Ee Hg) as (c & Hx & Hc).
        assert (w' = delete c w) as -> by congruence.
        rewrite (reported_columns_cons_failed _ _ e c) by done.
        change (take (S i) (c :: reported_columns l))
          with (c :: take i (reported_columns l)).
        rewrite strip_cons. by apply IH.
      * rewrite decide_accepted in Hd by done. discriminate.
Qed.

(** When every round removes a key, a small payload cannot use up the
    attempts: the run ends inside an iteration. *)
Variable shrinking : Exchange -> bool.
Hypothesis decide_shrinks :
  forall w rs w', decide w rs = Continue w' -> shrinking (query w, rs) = true ->
    size w' < size w.

Lemma Runs_ends_early n w l r :
  Run n w l r ->
  forallb shrinking l = true ->
  size w < n ->
  exists pre x, l = pre ++ [x] /\ decide (body_of x.1) x.2 = Return r /\
                length l <= S (size w).
Proof.
  induction 1 as [w | n w rs r Hd | n w rs w' l r Hd Hr IH]; intros Hs Hn.
  - lia.
  - exists [], (query w, rs). simpl. rewrite body_query. repeat split; [done | lia].
  - apply andb_prop in Hs as [Hs Hl].
    pose proof (decide_shrinks _ _ _ Hd Hs) as Hlt.
    destruct (IH Hl ltac:(lia)) as (pre & x & -> & Hx & Hlen).
    exists ((query w, rs) :: pre), x. simpl in *. repeat split; [done | lia].
Qed.
End PayloadLoops.

Lemma page_body_query table sel w : body_of (Page.insert_query table sel w) = w.
Proof. unfold Page.insert_query. destruct sel as [c|]; [destruct (nonempty c)|]; done. Qed.

Lemma script_body_query t sel w : body_of (script_query t sel w) = w.
Proof. done. Qed.

Lemma page_insert_run {Srv} (respond : Srv -> Request -> Response * Srv) table P sel s :
  Runs (Page.insert_query table sel) page_decide (Ok (Page.exhausted table)) 8 P
    (log_of (Page.insertWithColumnFallback respond table P sel s))
    (result_of (Page.insertWithColumnFallback respond table P sel s)).
Proof. apply page_insert_runs. Qed.

(** C5 -- duplicate-key idempotence of the radar page's
    [insertWithColumnFallback]: whichever attempt fails with an error that
    [isDuplicateError] accepts, that attempt is the last one and the call
    returns the success-shaped result: [error] null, [duplicate] true, [data]
    as the response carried it. *)
Theorem page_duplicate_key_is_success :
  forall {Srv} (respond : Srv -> Request -> Response * Srv)
         (table : string) (P : payload) (select : option string) (s : Srv)
         (pre post : list Exchange) (rq : Request) (rs : Response) (e : PgError),
    log_of (Page.insertWithColumnFallback respond table P select s) = pre ++ (rq, rs) :: post ->
    r_error rs = Some e ->
    Page.isDuplicateError (message e) = true ->
    post = [] /\
    result_of (Page.insertWithColumnFallback respond table P select s)
    = Ok {| Page.data := r_data rs; Page.error := None; Page.duplicate := true |}.
Proof.
  intros Srv respond table P select s pre post rq rs e Hlog He Hdup.
  pose proof (page_insert_run respond table P select s) as Hrun.
  rewrite Hlog in Hrun.
  eapply (Runs_returns_at (Page.insert_query table select) page_decide
            (Ok (Page.exhausted table)) (page_body_query table select)); [exact Hrun|].
  unfold page_decide; simpl. by rewrite He, Hdup.
Qed.

(** The same row inserted twice: the second insert meets the unique
    constraint, after a first attempt that lost a column. *)
Lemma page_duplicate_key_is_success_witness :
  result_of (Page.insertWithColumnFallback scripted "radar_participants"
               (Page.hostParticipant "r1" "u1") None
               [ failure (schema_cache_miss "role" "radar_participants");
                 failure "duplicate key value violates unique constraint (23505)" ])
  = Ok {| Page.data := DNull; Page.error := None; Page.duplicate := true |}.
Proof.
  refine (proj2 (page_duplicate_key_is_success scripted "radar_participants"
                   (Page.hostParticipant "r1" "u1") None _
                   [(Insert "radar_participants" (Page.hostParticipant "r1" "u1") None,
                     failure (schema_cache_miss "role" "radar_participants"))]
                   []
                   (Insert "radar_participants" (delete "role" (Page.hostParticipant "r1" "u1")) None)
                   (failure "duplicate key value violates unique constraint (23505)")
                   {| message := "duplicate key value violates unique constraint (23505)";
                      details := "" |} _ _ _));
    vm_compute; reflexivity.
Defined.

Lemma page_deletes_extract w msg c :
  page_deletes w msg = Some c ->
  extract_column msg = Some c /\ js_in c w = true /\ Page.isMissingColumnError msg = true.
Proof.
  unfold page_deletes, Page.extractMissingColumnName.
  destruct (extract_column msg) as [c'|]; [|discriminate].
  destruct (nonempty c' && js_in c' w && Page.isMissingColumnError msg) eqn:E; [|discriminate].
  intros [= <-]. apply andb_prop in E as [[_ ?]%andb_prop ?]. done.
Qed.

Lemma script_deletes_extract w e c :
  script_deletes w e = Some c ->
  extract_column (message e) = Some c /\ js_in c w = true /\ Script.isMissingColumnError e = true.
Proof.
  unfold script_deletes, Script.extractMissingColumnName.
  destruct (Script.isMissingColumnError e); [|discriminate].
  destruct (extract_column (message e)) as [c'|]; [|discriminate].
  destruct (nonempty c' && js_in c' w) eqn:E; [|discriminate].
  intros [= <-]. apply andb_prop in E as [_ ?]. done.
Qed.

Lemma has_own_js_in c w : has_own c w = true -> js_in c w = true.
Proof. unfold js_in. by intros ->. Qed.

Lemma page_good_continues table sel w rs e :
  r_error rs = Some e ->
  page_reports_present_column (Page.insert_query table sel w, rs)
  && page_not_duplicate (Page.insert_query table sel w, rs) = true ->
  exists c, extract_column (message e) = Some c /\ page_decide w rs = Continue (delete c w).
Proof.
  intros He [Hp Hd]%andb_prop.
  unfold page_reports_present_column, page_not_duplicate, reported in *.
  simpl in *. rewrite He in *. rewrite page_body_query in Hp.
  apply andb_prop in Hp as [Hm Hx].
  unfold Page.extractMissingColumnName in Hx.
  destruct (extract_column (message e)) as [c|] eqn:Ex; [|discriminate].
  exists c. split; [done|].
  unfold page_decide, page_deletes, Page.extractMissingColumnName.
  rewrite He, Ex, Hm, (extract_column_nonempty _ _ Ex), (has_own_js_in _ _ Hx).
  by destruct (Page.isDuplicateError (message e)).
Qed.

Lemma script_good_continues t sel w rs e :
  r_error rs = Some e ->
  script_reports_present_column (script_query t sel w, rs)
  && script_not_short_circuited (script_query t sel w, rs) = true ->
  exists c, extract_column (message e) = Some c /\ script_decide t w rs = Continue (delete c w).
Proof.
  intros He [Hp Hd]%andb_prop.
  unfold script_reports_present_column, script_not_short_circuited, reported in *.
  simpl in *. rewrite He in *.
  apply andb_prop in Hp as [Hm Hx]. apply andb_prop in Hd as [Hr Hpm].
  unfold Script.extractMissingColumnName in Hx.
  destruct (extract_column (message e)) as [c|] eqn:Ex; [|discriminate].
  exists c. split; [done|].
  unfold script_decide, script_deletes, Script.extractMissingColumnName.
  rewrite He, Ex, Hm, (extract_column_nonempty _ _ Ex), (has_own_js_in _ _ Hx).
  destruct (Script.isMissingRelationError e); [discriminate|].
  by destruct (Script.isPermissionError e).
Qed.

Lemma forallb_andb {A} (f g : A -> bool) l :
  forallb f l = true -> forallb g l = true -> forallb (fun x => f x && g x) l = true.
Proof.
  induction l as [|x l IH]; simpl; [done|].
  intros [-> ?]%andb_prop [-> ?]%andb_prop. simpl. auto.
Qed.

Lemma script_converges {Srv} (respond : Srv -> Request -> Response * Srv) n t P sel s :
  forallb script_reports_present_column (log_of (Script.insert_loop respond n t sel P s)) = true ->
  forallb script_not_short_circuited (log_of (Script.insert_loop respond n t sel P s)) = true ->
  converges (Script.insert_loop respond n t sel P s) n P
            (fun rs => Script.inserted t (r_data rs)).
Proof.
  intros H1 H2 Hlen.
  pose proof (script_insert_runs respond n t sel P s) as Hrun.
  pose proof (forallb_andb _ _ _ H1 H2) as Hg.
  split.
  - eapply (Runs_bodies (script_query t sel) (script_decide t) (Ok (Script.insert_exhausted t))
              (script_body_query t sel) _
              (fun rs => Ok (Script.inserted t (r_data rs)))); [| |exact Hrun|exact Hg].
    + intros w rs He. unfold script_decide. rewrite He. reflexivity.
    + intros w rs e. apply script_good_continues.
  - edestruct (Runs_converges (script_query t sel) (script_decide t)
                 (Ok (Script.insert_exhausted t)) (script_body_query t sel)
                 (fun x => script_reports_present_column x && script_not_short_circuited x)
                 (fun rs => Ok (Script.inserted t (r_data rs))))
      as (pre & rq & rs & Hl & He & Hb & Hr & Hp); [| |exact Hrun|exact Hg|exact Hlen|].
    + intros w rs He. unfold script_decide. by rewrite He.
    + intros w rs e. apply script_good_continues.
    + exists pre, rq, rs. repeat split; try done.
      intros k. rewrite Hb. apply strip_lookup.
Qed.

(** C1 (amended) -- column-fallback convergence.  Take any run of
    [insertWithColumnFallback] on a payload [P] in which every failed
    attempt reports a missing-column error whose extracted name is an own
    key of the request body, and which no earlier guard of the loop claims
    (duplicate key on the radar page; missing relation or permission in the
    scripts).  If the reported columns [S] are fewer than the ceiling (8 on
    the page, 10 and 12 in the scripts), then each request carries [P]
    minus the columns reported before it, the last request is accepted, its
    body is [P] minus [S], and the call returns success with the row of
    that response. *)
Theorem column_fallback_converges :
  (forall {Srv} (respond : Srv -> Request -> Response * Srv) table P select s,
     forallb page_reports_present_column
       (log_of (Page.insertWithColumnFallback respond table P select s)) = true ->
     forallb page_not_duplicate
       (log_of (Page.insertWithColumnFallback respond table P select s)) = true ->
     converges (Page.insertWithColumnFallback respond table P select s) 8 P
       (fun rs => {| Page.data := r_data rs; Page.error := None; Page.duplicate := false |}))
  /\
  (forall {Srv} (respond : Srv -> Request -> Response * Srv) t P selectColumns s,
     forallb script_reports_present_column
       (log_of (Script.Smoke.insertWithColumnFallback respond t P selectColumns s)) = true ->
     forallb script_not_short_circuited
       (log_of (Script.Smoke.insertWithColumnFallback respond t P selectColumns s)) = true ->
     converges (Script.Smoke.insertWithColumnFallback respond t P selectColumns s) 10 P
       (fun rs => Script.inserted t (r_data rs)))
  /\
  (forall {Srv} (respond : Srv -> Request -> Response * Srv) t P selectColumns s,
     forallb script_reports_present_column
       (log_of (Script.Invite.insertWithColumnFallback respond t P selectColumns s)) = true ->
     forallb script_not_short_circuited
       (log_of (Script.Invite.insertWithColumnFallback respond t P selectColumns s)) = true ->
     converges (Script.Invite.insertWithColumnFallback respond t P selectColumns s) 12 P
       (fun rs => Script.inserted t (r_data rs))).
Proof.
  split; [|split].
  - intros Srv respond table P select s H1 H2 Hlen.
    pose proof (page_insert_run respond table P select s) as Hrun.
    pose proof (forallb_andb _ _ _ H1 H2) as Hg.
    split.
    + eapply (Runs_bodies (Page.insert_query table select) page_decide
                (Ok (Page.exhausted table)) (page_body_query table select) _
                (fun rs => Ok {| Page.data := r_data rs; Page.error := None;
                                 Page.duplicate := false |}));
        [| |exact Hrun|exact Hg].
      * intros w rs He. unfold page_decide. rewrite He. reflexivity.
      * intros w rs e. apply page_good_continues.
    + edestruct (Runs_converges (Page.insert_query table select) page_decide
                   (Ok (Page.exhausted table)) (page_body_query table select)
                   (fun x => page_reports_present_column x && page_not_duplicate x)
                   (fun rs => Ok {| Page.data := r_data rs; Page.error := None;
                                    Page.duplicate := false |}))
        as (pre & rq & rs & Hl & He & Hb & Hr & Hp); [| |exact Hrun|exact Hg|exact Hlen|].
      * intros w rs He. unfold page_decide. by rewrite He.
      * intros w rs e. apply page_good_continues.
      * exists pre, rq, rs. repeat split; try done.
        intros k. rewrite Hb. apply strip_lookup.
  - intros Srv respond t P sel s. apply script_converges.
  - intros Srv respond t P sel s. apply script_converges.
Qed.

(** The scenario of the specification: the store misses [church_name],
    the retry without it is accepted. *)
Lemma column_fallback_converges_witness :
  exists pre rq rs,
    log_of page_church_name_run = pre ++ [(rq, rs)] /\
    length pre = length (reported_columns (log_of page_church_name_run)) /\
    r_error rs = None /\
    body_of rq = strip {[ "title" := VStr "Misa Minggu"; "church_name" := VStr "Katedral" ]}
                   (reported_columns (log_of page_church_name_run)) /\
    (forall k, body_of rq !! k
               = if bool_decide (k ∈ reported_columns (log_of page_church_name_run))
                 then None
                 else ({[ "title" := VStr "Misa Minggu";
                          "church_name" := VStr "Katedral" ]} : payload) !! k) /\
    result_of page_church_name_run
    = Ok {| Page.data := r_data rs; Page.error := None; Page.duplicate := false |}.
Proof.
  refine (proj2 (proj1 column_fallback_converges _ scripted "radar_events"
                   {[ "title" := VStr "Misa Minggu"; "church_name" := VStr "Katedral" ]}
                   (Some "id")
                   [ failure (schema_cache_miss "church_name" "radar_events");
                     returned_row "ev1" ] _ _ _)).
  - vm_compute; reflexivity.
  - vm_compute; reflexivity.
  - vm_compute; lia.
Defined.

(** C1, as stated, fails.  In the check-in script the wording PostgreSQL
    uses for an unknown column of an INSERT is a missing-column error that
    names a key of the payload, yet the loop answers with the missing-relation
    result and issues no second request; on the radar page a missing-column
    error that also matches [isDuplicateError] ends the call at once. *)
Lemma column_fallback_as_stated_fails :
  (forallb script_reports_present_column (log_of smoke_undefined_column_run) = true /\
   length (reported_columns (log_of smoke_undefined_column_run)) < 10 /\
   length (log_of smoke_undefined_column_run) = 1 /\
   result_of smoke_undefined_column_run
   = Ok (Script.insert_missing "radar_participants"
           {| message := pg_undefined_column "status" "radar_participants"; details := "" |}) /\
   ~ converges smoke_undefined_column_run 10 (Page.hostParticipant "r1" "u1")
       (fun rs => Script.inserted "radar_participants" (r_data rs)))
  /\
  (forallb page_reports_present_column (log_of page_duplicate_and_column_run) = true /\
   length (reported_columns (log_of page_duplicate_and_column_run)) < 8 /\
   length (log_of page_duplicate_and_column_run) = 1 /\
   ~ converges page_duplicate_and_column_run 8 (Page.hostParticipant "r1" "u1")
       (fun rs => {| Page.data := r_data rs; Page.error := None; Page.duplicate := false |})).
Proof.
  split.
  - split; [vm_compute; reflexivity|].
    split; [vm_compute; lia|].
    split; [vm_compute; reflexivity|].
    split; [vm_compute; reflexivity|].
    intros H. destruct H as [_ (pre & rq & rs & Hlog & _ & He & _)]; [vm_compute; lia|].
    destruct pre as [|x [|y pre]]; vm_compute in Hlog; try discriminate.
    injection Hlog as _ Hrs. rewrite <- Hrs in He. discriminate.
  - split; [vm_compute; reflexivity|].
    split; [vm_compute; lia|].
    split; [vm_compute; reflexivity|].
    intros H. destruct H as [_ (pre & rq & rs & Hlog & _ & He & _)]; [vm_compute; lia|].
    destruct pre as [|x [|y pre]]; vm_compute in Hlog; try discriminate.
    injection Hlog as _ Hrs. rewrite <- Hrs in He. discriminate.
Qed.

Lemma script_missing_relation_returns {Srv} (respond : Srv -> Request -> Response * Srv)
    n t P sel s :
  returns_at_once (Script.insert_loop respond n t sel P s)
    (fun _ e => Script.isMissingRelationError e)
    (fun _ e => Script.insert_missing t e).
Proof.
  intros pre rq rs post e Hlog He Hrel.
  pose proof (script_insert_runs respond n t sel P s) as Hrun.
  rewrite Hlog in Hrun.
  eapply (Runs_returns_at (script_query t sel) (script_decide t)
            (Ok (Script.insert_exhausted t)) (script_body_query t sel)); [exact Hrun|].
  unfold script_decide; simpl. by rewrite He, Hrel.
Qed.

(** C2 (amended) -- missing-relation short-circuit.  In both smoke scripts
    an attempt of [insertWithColumnFallback] that fails with an error
    [isMissingRelationError] accepts is the last request of the call, which
    returns the result flagged [missing] with that error.  The radar page's
    [insertWithColumnFallback] has no such branch and no [missing] result: a
    missing-relation error that is not a duplicate-key error and triggers no
    column deletion ends the call with the plain failure carrying the raw
    error. *)
Theorem missing_relation_short_circuit :
  (forall {Srv} (respond : Srv -> Request -> Response * Srv) t P selectColumns s,
     returns_at_once (Script.Smoke.insertWithColumnFallback respond t P selectColumns s)
       (fun _ e => Script.isMissingRelationError e)
       (fun _ e => Script.insert_missing t e))
  /\
  (forall {Srv} (respond : Srv -> Request -> Response * Srv) t P selectColumns s,
     returns_at_once (Script.Invite.insertWithColumnFallback respond t P selectColumns s)
       (fun _ e => Script.isMissingRelationError e)
       (fun _ e => Script.insert_missing t e))
  /\
  (forall {Srv} (respond : Srv -> Request -> Response * Srv) table P select s,
     returns_at_once (Page.insertWithColumnFallback respond table P select s)
       (fun rq e => Page.isMissingRelationError (message e)
                    && negb (Page.isDuplicateError (message e))
                    && bool_decide (page_deletes (body_of rq) (message e) = None))
       (fun _ e => {| Page.data := DNull; Page.error := Some e; Page.duplicate := false |})).
Proof.
  split; [|split].
  - intros. apply script_missing_relation_returns.
  - intros. apply script_missing_relation_returns.
  - intros Srv respond table P select s pre rq rs post e Hlog He Htr.
    apply andb_prop in Htr as [[_ Hd]%andb_prop Hdel].
    apply bool_decide_eq_true_1 in Hdel.
    pose proof (page_insert_run respond table P select s) as Hrun.
    rewrite Hlog in Hrun.
    eapply (Runs_returns_at (Page.insert_query table select) page_decide
              (Ok (Page.exhausted table)) (page_body_query table select)); [exact Hrun|].
    unfold page_decide; simpl. rewrite He, Hdel.
    by destruct (Page.isDuplicateError (message e)).
Qed.

(** The second scenario of the specification: the events table is absent,
    the script asks once and reports [missing]. *)
Lemma missing_relation_short_circuit_witness :
  log_of invite_missing_table_run
  = [ (Insert "radar_events" (Page.hostParticipant "r1" "u1") (Some "id"),
       failure "relation 'public.radar_events' does not exist") ] /\
  result_of invite_missing_table_run
  = Ok (Script.insert_missing "radar_events"
          {| message := "relation 'public.radar_events' does not exist"; details := "" |}).
Proof.
  split; [vm_compute; reflexivity|].
  refine (proj2 (proj1 (proj2 missing_relation_short_circuit) _ scripted "radar_events"
                   (Page.hostParticipant "r1" "u1") "id"
                   [ failure "relation 'public.radar_events' does not exist" ]
                   [] (Insert "radar_events" (Page.hostParticipant "r1" "u1") (Some "id"))
                   (failure "relation 'public.radar_events' does not exist") []
                   {| message := "relation 'public.radar_events' does not exist";
                      details := "" |} _ _ _));
    vm_compute; reflexivity.
Defined.

(** C2, as stated, fails on the radar page: an error [isMissingRelationError]
    accepts is answered by deleting the named column and inserting into the
    same table again, and the call ends in success; an absent table yields the
    same plain failure shape as any other error. *)
Lemma missing_relation_retried_on_page :
  Page.isMissingRelationError (pg_undefined_column "status" "radar_participants") = true /\
  log_of page_undefined_column_run
  = [ (Insert "radar_participants" (Page.hostParticipant "r1" "u1") None,
       failure (pg_undefined_column "status" "radar_participants"));
      (Insert "radar_participants" (delete "status" (Page.hostParticipant "r1" "u1")) None,
       accepted) ] /\
  result_of page_undefined_column_run
  = Ok {| Page.data := DNull; Page.error := None; Page.duplicate := false |} /\
  Page.isMissingRelationError "relation 'public.radar_events' does not exist" = true /\
  result_of page_missing_table_run
  = Ok {| Page.data := DNull;
          Page.error := Some {| message := "relation 'public.radar_events' does not exist";
                                details := "" |};
          Page.duplicate := false |}.
Proof. repeat split; vm_compute; reflexivity. Qed.

Lemma script_attempt_bound {Srv} (respond : Srv -> Request -> Response * Srv) n t P sel s :
  length (log_of (Script.insert_loop respond n t sel P s)) <= n /\
  (forallb (script_continues t) (log_of (Script.insert_loop respond n t sel P s)) = true ->
   length (log_of (Script.insert_loop respond n t sel P s)) = n /\
   result_of (Script.insert_loop respond n t sel P s)
   = Ok (Script.insert_failed t
           {| message := "Gagal insert " +:+ t +:+ " setelah beberapa percobaan.";
              details := "" |})).
Proof.
  pose proof (script_insert_runs respond n t sel P s) as Hrun. split.
  - eapply Runs_length, Hrun.
  - intros Hall.
    apply (Runs_all_continue (script_query t sel) (script_decide t)
             (Ok (Script.insert_exhausted t)) (script_body_query t sel) _ _ _ _ Hrun Hall).
Qed.



Lemma js_in_own c (w : payload) : js_in c w = true -> inherited c = false -> is_Some (w !! c).
Proof.
  unfold js_in, has_own. intros H Hi. rewrite Hi, orb_false_r in H.
  destruct (w !! c); [eauto | discriminate].
Qed.

Lemma page_decide_shrinks table sel w rs w' :
  page_decide w rs = Continue w' ->
  reports_no_inherited_name (Page.insert_query table sel w, rs) = true ->
  size w' < size w.
Proof.
  unfold page_decide, reports_no_inherited_name, reported; simpl.
  destruct (r_error rs) as [e|]; [|discriminate].
  destruct (Page.isDuplicateError (message e)); [discriminate|].
  destruct (page_deletes w (message e)) as [c|] eqn:Ed; [|discriminate].
  apply page_deletes_extract in Ed as (Hx & Hin & _). rewrite Hx.
  intros [= <-] Hni. apply negb_true_iff in Hni.
  pose proof (js_in_own _ _ Hin Hni) as Hsome.
  rewrite (map_size_delete_Some _ _ Hsome).
  destruct Hsome as [v Hv]. pose proof (map_size_non_empty_iff w) as Hne.
  assert (size w <> 0) by (apply Hne; intros ->; by rewrite lookup_empty in Hv).
  lia.
Qed.

(** The implicit property holds on the path the code was written for: as
    long as no reported column is a name inherited from [Object.prototype],
    every round removes an own key, and a payload of fewer than 8 keys makes
    the call return from inside one of its attempts. *)
Lemma page_insert_ends_early {Srv} (respond : Srv -> Request -> Response * Srv)
    table (P : payload) select s :
  forallb reports_no_inherited_name
    (log_of (Page.insertWithColumnFallback respond table P select s)) = true ->
  size P < 8 ->
  exists pre x,
    log_of (Page.insertWithColumnFallback respond table P select s) = pre ++ [x] /\
    page_decide (body_of x.1) x.2
    = Return (result_of (Page.insertWithColumnFallback respond table P select s)) /\
    length (log_of (Page.insertWithColumnFallback respond table P select s)) <= S (size P).
Proof.
  intros Hown Hsize.
  exact (Runs_ends_early (Page.insert_query table select) page_decide
           (Ok (Page.exhausted table)) (page_body_query table select)
           reports_no_inherited_name (page_decide_shrinks table select)
           _ _ _ _ (page_insert_run respond table P select s) Hown Hsize).
Qed.

(** C9 -- the code at the failing input.  The payload has four keys; the
    store reports, eight times, a missing column named [toString].  The name
    is [in] the working copy by inheritance, [delete] removes nothing, and the
    loop sends the unchanged payload eight times and returns the synthesized
    failure. *)
Theorem page_inherited_name_exhausts_attempts :
  size (Page.hostParticipant "r1" "u1") = 4 /\
  page_deletes (Page.hostParticipant "r1" "u1") "column 'toString' does not exist"
  = Some "toString" /\
  delete "toString" (Page.hostParticipant "r1" "u1") = Page.hostParticipant "r1" "u1" /\
  log_of page_inherited_name_run
  = replicate 8 (Insert "radar_participants" (Page.hostParticipant "r1" "u1") None,
                 failure "column 'toString' does not exist") /\
  result_of page_inherited_name_run = Ok (Page.exhausted "radar_participants").
Proof. repeat split; vm_compute; reflexivity. Qed.

(** ** The archive and check-out loops *)

#[local] Hint Unfold checkout_decide archive_decide : branches.

Lemma checkout_runs {Srv} (respond : Srv -> Request -> Response * Srv) n active userId w s :
  Runs (Page.checkout_query active userId) checkout_decide
    (Throw "Gagal check-out sekarang.") n w
    (log_of (Page.checkout_loop respond n active userId w s))
    (result_of (Page.checkout_loop respond n active userId w s)).
Proof.
  revert w s. induction n as [|n IH]; intros w s.
  - constructor.
  - simpl. unfold bind, send.
    destruct (respond s (Page.checkout_query active userId w)) as [rs s1] eqn:E.
    destruct (r_error rs) as [e|] eqn:Ee; [|run_returns].
    destruct (Page.extractMissingColumnName (message e)) as [c|] eqn:Ex.
    + destruct (nonempty c && js_in c w && Page.isMissingColumnError (message e)) eqn:Eg.
      * run_continues (IH (delete c w) s1).
      * destruct (is_str "ARCHIVED" (get "status" w)
                  && Page.shouldFallbackToFinishedStatus (message e)) eqn:Ea.
        -- run_continues (IH (<["status" := VStr "FINISHED"]> w) s1).
        -- destruct (Page.isPermissionError (message e)) eqn:Ep; run_returns.
    + destruct (is_str "ARCHIVED" (get "status" w)
                && Page.shouldFallbackToFinishedStatus (message e)) eqn:Ea.
      * run_continues (IH (<["status" := VStr "FINISHED"]> w) s1).
      * destruct (Page.isPermissionError (message e)) eqn:Ep; run_returns.
Qed.

Lemma archive_runs {Srv} (respond : Srv -> Request -> Response * Srv) n t userId w s :
  Runs (Script.archive_query t userId) archive_decide
    (Ok (Script.update_result false false false
           (Some {| message := "Gagal mengarsipkan " +:+ t +:+ "."; details := "" |}))) n w
    (log_of (Script.archive_loop respond n t userId w s))
    (result_of (Script.archive_loop respond n t userId w s)).
Proof.
  revert w s. induction n as [|n IH]; intros w s.
  - constructor.
  - simpl. unfold bind, send.
    destruct (respond s (Script.archive_query t userId w)) as [rs s1] eqn:E.
    destruct (r_error rs) as [e|] eqn:Ee; [|run_returns].
    destruct (Script.isMissingRelationError e) eqn:Er; [run_returns|].
    destruct (Script.isPermissionError e) eqn:Ep; [run_returns|].
    destruct (is_str "ARCHIVED" (get "status" w) && Script.isEnumConstraintError e) eqn:Ea;
      [run_continues (IH (<["status" := VStr "FINISHED"]> w) s1)|].
    destruct (Script.isMissingColumnError e) eqn:Ec; [|run_returns].
    destruct (Script.extractMissingColumnName e) as [c|] eqn:Ex; [|run_returns].
    destruct (nonempty c && js_in c w) eqn:Eg; [|run_returns].
    run_continues (IH (delete c w) s1).
Qed.

Lemma is_str_get_delete lit c (w : payload) :
  is_str lit (get "status" (delete c w)) = true -> is_str lit (get "status" w) = true.
Proof.
  unfold get. destruct (decide (c = "status")) as [->|Hne].
  - by rewrite lookup_delete_eq.
  - by rewrite lookup_delete_ne.
Qed.

Lemma is_str_finished_not_archived (w : payload) :
  is_str "ARCHIVED" (get "status" (<["status" := VStr "FINISHED"]> w)) = false.
Proof. unfold get. by rewrite lookup_insert_eq. Qed.

Lemma is_str_two v : is_str "ARCHIVED" v = true -> is_str "FINISHED" v = true -> False.
Proof.
  destruct v; simpl; try discriminate.
  intros ->%String.eqb_eq. discriminate.
Qed.

Section SubstituteOnce.
Context {R : Type}.
Variable query : payload -> Request.
Variable decide : payload -> Response -> step payload R.
Variable exhausted : outcome R.
Hypothesis body_query : forall w, body_of (query w) = w.

(** The two ways such a loop changes its working copy. *)
Hypothesis decide_moves :
forall w rs w', decide w rs = Continue w' ->
  (exists c, w' = delete c w) \/
  (is_str "ARCHIVED" (get "status" w) = true /\ w' = <["status" := VStr "FINISHED"]> w).

Lemma substitutions_cons x y t :
substitutions (x :: y :: t)
= (if is_str "ARCHIVED" (status_of x) && is_str "FINISHED" (status_of y) then 1 else 0)
  + substitutions (y :: t).
Proof. reflexivity. Qed.

Lemma Runs_head_status n w x t r :
Runs query decide exhausted n w (x :: t) r -> status_of x = get "status" w.
Proof. intros [Hq _]%Runs_head. unfold status_of. by rewrite Hq, body_query. Qed.

(** Once the status is no longer [ARCHIVED] it never is again. *)
Lemma Runs_no_substitution n w l r :
Runs query decide exhausted n w l r ->
is_str "ARCHIVED" (get "status" w) = false ->
substitutions l = 0.
Proof.
induction 1 as [w | n w rs r Hd | n w rs w' l r Hd Hr IH]; intros Hw; [done..|].
destruct l as [|y t]; [done|].
rewrite substitutions_cons.
set (rest := substitutions (y :: t)) in *.
unfold status_of at 1; simpl. rewrite body_query, Hw. simpl.
apply IH. destruct (decide_moves _ _ _ Hd) as [[c ->] | [Ha _]].
- destruct (is_str "ARCHIVED" (get "status" (delete c w))) eqn:E; [|done].
  apply is_str_get_delete in E. congruence.
- congruence.
Qed.

Lemma Runs_substitutes_once n w l r :
Runs query decide exhausted n w l r -> substitutions l <= 1.
Proof.
induction 1 as [w | n w rs r Hd | n w rs w' l r Hd Hr IH]; [simpl; lia..|].
destruct l as [|y t]; [simpl; lia|].
rewrite substitutions_cons.
pose proof (Runs_head_status _ _ _ _ _ Hr) as Hy.
pose proof (Runs_no_substitution _ _ _ _ Hr) as Hnone.
set (rest := substitutions (y :: t)) in *.
unfold status_of at 1; simpl. rewrite body_query, Hy.
destruct (decide_moves _ _ _ Hd) as [[c ->] | [Ha ->]].
- assert (is_str "ARCHIVED" (get "status" w)
          && is_str "FINISHED" (get "status" (delete c w)) = false) as ->; [|exact IH].
  destruct (is_str "ARCHIVED" (get "status" w)) eqn:Ea; [|done].
  destruct (is_str "FINISHED" (get "status" (delete c w))) eqn:Ef; [|done].
  apply is_str_get_delete in Ef. destruct (is_str_two _ Ea Ef).
- rewrite (Hnone (is_str_finished_not_archived w)).
  destruct (_ && _); simpl; lia.
Qed.

(** The request that follows an exchange carries the working copy the
  iteration produced. *)
Lemma Runs_next_body n w pre x y post r w' :
Runs query decide exhausted n w (pre ++ x :: y :: post) r ->
decide (body_of x.1) x.2 = Continue w' ->
body_of y.1 = w'.
Proof.
intros (m & w0 & Hr & _)%Runs_suffix Hd.
apply Runs_head in Hr as [Hq Hr].
rewrite Hq, body_query in Hd. rewrite Hd in Hr.
destruct Hr as (m' & _ & Hr). apply Runs_head in Hr as [Hq' _].
by rewrite Hq', body_query.
Qed.

(** A store that rejects every status: two requests, then the error. *)
Variable rejects : Exchange -> bool.
Variable surface : PgError -> outcome R.
Hypothesis rejects_archived :
forall x, rejects x = true -> is_str "ARCHIVED" (status_of x) = true ->
  decide (body_of x.1) x.2 = Continue (<["status" := VStr "FINISHED"]> (body_of x.1)).
Hypothesis rejects_replaced :
forall x, rejects x = true -> is_str "ARCHIVED" (status_of x) = false ->
  exists e, reported x = Some e /\ decide (body_of x.1) x.2 = Return (surface e).

Lemma rejects_at w rs :
rejects (query w, rs) = true -> is_str "ARCHIVED" (get "status" w) = true ->
decide w rs = Continue (<["status" := VStr "FINISHED"]> w).
Proof.
intros H Ha. pose proof (rejects_archived (query w, rs) H) as Hd.
unfold status_of in Hd; simpl in Hd. rewrite body_query in Hd. auto.
Qed.

Lemma rejects_after w rs :
rejects (query w, rs) = true -> is_str "ARCHIVED" (get "status" w) = false ->
exists e, r_error rs = Some e /\ decide w rs = Return (surface e).
Proof.
intros H Ha. pose proof (rejects_replaced (query w, rs) H) as Hd.
unfold status_of in Hd; simpl in Hd. rewrite body_query in Hd. auto.
Qed.

Lemma Runs_rejected_twice n w l r :
Runs query decide exhausted (S (S n)) w l r ->
is_str "ARCHIVED" (get "status" w) = true ->
forallb rejects l = true ->
exists x1 x2 e2,
  l = [x1; x2] /\ body_of x1.1 = w /\
  body_of x2.1 = <["status" := VStr "FINISHED"]> w /\
  reported x2 = Some e2 /\ r = surface e2.
Proof.
intros Hrun Ha Hall.
inversion Hrun as [ | ? ? rs1 ? Hd1 | ? ? rs1 w1 l1 ? Hd1 Hr1 ]; subst.
- simpl in Hall. apply andb_prop in Hall as [H1 _].
  rewrite (rejects_at _ _ H1 Ha) in Hd1. discriminate.
- simpl in Hall. apply andb_prop in Hall as [H1 Hall].
  rewrite (rejects_at _ _ H1 Ha) in Hd1. injection Hd1 as <-.
  pose proof (is_str_finished_not_archived w) as Hf.
  inversion Hr1 as [ | ? ? rs2 ? Hd2 | ? ? rs2 w2 l2 ? Hd2 Hr2 ]; subst.
  + simpl in Hall. apply andb_prop in Hall as [H2 _].
    destruct (rejects_after _ _ H2 Hf) as (e2 & He2 & Hd2').
    rewrite Hd2' in Hd2. injection Hd2 as <-.
    exists (query w, rs1), (query (<["status" := VStr "FINISHED"]> w), rs2), e2.
    simpl. rewrite !body_query. done.
  + simpl in Hall. apply andb_prop in Hall as [H2 _].
    destruct (rejects_after _ _ H2 Hf) as (e2 & He2 & Hd2').
    rewrite Hd2' in Hd2. discriminate.
Qed.

End SubstituteOnce.

Lemma checkout_body_query active userId w : body_of (Page.checkout_query active userId w) = w.
Proof. done. Qed.

Lemma archive_body_query t userId w : body_of (Script.archive_query t userId w) = w.
Proof. done. Qed.

Lemma checkout_moves w rs w' :
  checkout_decide w rs = Continue w' ->
  (exists c, w' = delete c w) \/
  (is_str "ARCHIVED" (get "status" w) = true /\ w' = <["status" := VStr "FINISHED"]> w).
Proof.
  unfold checkout_decide.
  destruct (r_error rs) as [e|]; [|discriminate].
  destruct (page_deletes w (message e)) as [c|]; [intros [= <-]; eauto|].
  destruct (is_str "ARCHIVED" (get "status" w)) eqn:Ea; simpl.
  - destruct (Page.shouldFallbackToFinishedStatus (message e)); [intros [= <-]; eauto|].
    by destruct (Page.isPermissionError (message e)).
  - by destruct (Page.isPermissionError (message e)).
Qed.

Lemma archive_moves w rs w' :
  archive_decide w rs = Continue w' ->
  (exists c, w' = delete c w) \/
  (is_str "ARCHIVED" (get "status" w) = true /\ w' = <["status" := VStr "FINISHED"]> w).
Proof.
  unfold archive_decide.
  destruct (r_error rs) as [e|]; [|discriminate].
  destruct (Script.isMissingRelationError e); [discriminate|].
  destruct (Script.isPermissionError e); [discriminate|].
  destruct (is_str "ARCHIVED" (get "status" w)) eqn:Ea; simpl.
  - destruct (Script.isEnumConstraintError e); [intros [= <-]; eauto|].
    destruct (script_deletes w e) as [c|]; [intros [= <-]; eauto | discriminate].
  - destruct (script_deletes w e) as [c|]; [intros [= <-]; eauto | discriminate].
Qed.

Lemma checkout_rejects_archived x :
  checkout_rejects x = true -> is_str "ARCHIVED" (status_of x) = true ->
  checkout_decide (body_of x.1) x.2
  = Continue (<["status" := VStr "FINISHED"]> (body_of x.1)).
Proof.
  unfold checkout_rejects, checkout_decide, reported, status_of.
  destruct (r_error x.2) as [e|]; [|discriminate].
  intros [[Hdel Hperm]%andb_prop Hen]%andb_prop Ha.
  apply bool_decide_eq_true_1 in Hdel. rewrite Hdel, Ha in *. by rewrite Hen.
Qed.

Lemma checkout_rejects_replaced x :
  checkout_rejects x = true -> is_str "ARCHIVED" (status_of x) = false ->
  exists e, reported x = Some e /\
            checkout_decide (body_of x.1) x.2 = Return (Throw (message e)).
Proof.
  unfold checkout_rejects, checkout_decide, reported, status_of.
  destruct (r_error x.2) as [e|]; [|discriminate].
  intros [[Hdel Hperm]%andb_prop _]%andb_prop Ha.
  apply bool_decide_eq_true_1 in Hdel. apply negb_true_iff in Hperm.
  exists e. by rewrite Hdel, Ha, Hperm.
Qed.

Lemma archive_rejects_archived x :
  archive_rejects x = true -> is_str "ARCHIVED" (status_of x) = true ->
  archive_decide (body_of x.1) x.2
  = Continue (<["status" := VStr "FINISHED"]> (body_of x.1)).
Proof.
  unfold archive_rejects, archive_decide, reported, status_of.
  destruct (r_error x.2) as [e|]; [|discriminate].
  intros [[Hrel Hperm]%andb_prop Hen]%andb_prop Ha.
  apply negb_true_iff in Hrel, Hperm. rewrite Hrel, Hperm, Ha in *. by rewrite Hen.
Qed.

Lemma archive_rejects_replaced x :
  archive_rejects x = true -> is_str "ARCHIVED" (status_of x) = false ->
  exists e, reported x = Some e /\
            archive_decide (body_of x.1) x.2
            = Return (Ok (Script.update_result false false false (Some e))).
Proof.
  unfold archive_rejects, archive_decide, reported, status_of.
  destruct (r_error x.2) as [e|]; [|discriminate].
  intros [[Hrel Hperm]%andb_prop Hdel]%andb_prop Ha.
  apply negb_true_iff in Hrel, Hperm. rewrite Ha in Hdel.
  apply bool_decide_eq_true_1 in Hdel.
  exists e. by rewrite Hrel, Hperm, Ha, Hdel.
Qed.




(** ** Orchestration on top of the page's insert loop *)

Lemma page_query_inserts table sel w x rs :
  x = (Page.insert_query table sel w, rs) -> inserts_into table x.
Proof.
  intros ->. unfold inserts_into, Page.insert_query; simpl.
  destruct sel as [c|]; [destruct (nonempty c)|]; eauto.
Qed.

(** What a run of the page's insert loop looks like from outside. *)
Lemma page_runs_shape table sel n w l r :
  Runs (Page.insert_query table sel) page_decide (Ok (Page.exhausted table)) n w l r ->
  exists r',
    r = Ok r' /\
    Forall (inserts_into table) l /\
    (forall x t, l = x :: t -> body_of x.1 = w) /\
    (forall rq rs, last l = Some (rq, rs) ->
       (insert_accepted rs = true <-> Page.error r' = None) /\
       (Page.error r' = None -> Page.data r' = r_data rs)).
Proof.
  induction 1 as [w | n w rs r Hd | n w rs w' l r Hd Hr IH].
  - exists (Page.exhausted table). repeat split; try done.
  - unfold page_decide in Hd.
    assert (exists r', r = Ok r' /\
              (insert_accepted rs = true <-> Page.error r' = None) /\
              (Page.error r' = None -> Page.data r' = r_data rs)) as (r' & -> & Ha & Hc).
    { unfold insert_accepted. destruct (r_error rs) as [e|].
      - destruct (Page.isDuplicateError (message e)).
        + injection Hd as <-. eexists; split; [done|]. simpl. done.
        + destruct (page_deletes w (message e)); [discriminate|].
          injection Hd as <-. eexists; split; [done|]. simpl.
          split; [split; discriminate | discriminate].
      - injection Hd as <-. eexists; split; [done|]. simpl. done. }
    exists r'. split; [done|]. split; [|split].
    + constructor; [|constructor]. by eapply page_query_inserts.
    + intros x t [= <- <-]. apply page_body_query.
    + intros rq rs' [= <- <-]. done.
  - destruct IH as (r' & -> & Hall & Hhead & Hlast).
    exists r'. split; [done|]. split; [|split].
    + constructor; [by eapply page_query_inserts | done].
    + intros x t [= <- <-]. apply page_body_query.
    + destruct l as [|y l].
      * inversion Hr; subst. intros rq rs' [= <- <-].
        unfold insert_accepted, page_decide in *.
        destruct (r_error rs) as [e|]; [|discriminate].
        destruct (Page.isDuplicateError (message e)); [discriminate|].
        split; [split; discriminate | discriminate].
      * intros rq rs'. rewrite last_cons_cons. apply Hlast.
Qed.

Lemma page_insert_shape {Srv} (respond : Srv -> Request -> Response * Srv) table P sel s :
  exists r' l s',
    Page.insertWithColumnFallback respond table P sel s = (Ok r', l, s') /\
    Forall (inserts_into table) l /\
    (exists x t, l = x :: t /\ body_of x.1 = P) /\
    (forall rq rs, last l = Some (rq, rs) ->
       (insert_accepted rs = true <-> Page.error r' = None) /\
       (Page.error r' = None -> Page.data r' = r_data rs)).
Proof.
  pose proof (page_insert_run respond table P sel s) as Hrun.
  destruct (Page.insertWithColumnFallback respond table P sel s) as [[r l] s'] eqn:E.
  unfold log_of, result_of in Hrun; simpl in Hrun.
  pose proof (Runs_nonempty _ _ _ _ _ _ _ Hrun) as Hne.
  destruct (page_runs_shape _ _ _ _ _ _ Hrun) as (r' & -> & Hall & Hhead & Hlast).
  exists r', l, s'. split; [done|]. split; [done|]. split; [|exact Hlast].
  destruct l as [|x t]; [done|]. exists x, t. split; [done|]. by eapply Hhead.
Qed.

Lemma truthy_toString v : truthy v = true -> exists str, toString_opt v = Some str.
Proof. destruct v as [| |[]| | |]; simpl; try discriminate; eauto. Qed.

Lemma last_nonempty {A} (l : list A) : l <> [] -> exists x, last l = Some x.
Proof.
  induction l as [|x [|y l] IH]; [done | eauto |].
  intros _. rewrite last_cons_cons. by apply IH.
Qed.

(** The response that closes an insert phase carries the id the caller
    reads off the result, or none when the caller sees no creation. *)
Lemma page_phase_id r' (l : list Exchange) :
  l <> [] ->
  (forall rq rs, last l = Some (rq, rs) ->
     (insert_accepted rs = true <-> Page.error r' = None) /\
     (Page.error r' = None -> Page.data r' = r_data rs)) ->
  exists rq rs,
    last l = Some (rq, rs) /\
    returned_id rs = if Page.created r' then Some (Page.created_id r') else None.
Proof.
  intros Hne Hlast. destruct (last_nonempty l Hne) as [[rq rs] Hl].
  destruct (Hlast _ _ Hl) as [Hacc Hd].
  exists rq, rs. split; [done|].
  unfold returned_id, Page.created, Page.created_id.
  destruct (Page.error r') as [e|].
  - destruct (insert_accepted rs); [|done].
    pose proof (proj1 Hacc eq_refl). discriminate.
  - rewrite (proj2 Hacc eq_refl), (Hd eq_refl). simpl.
    destruct (truthy (field "id" (r_data rs))) eqn:Ht; [|done].
    apply truthy_toString in Ht as [str ->]. done.
Qed.


(** A deployment with the second generation only: the HOST row follows the
    event into the second generation. *)
Lemma createRadarEvent_on_v2_only :
  result_of create_on_v2_run = Ok "ev2" /\
  (fun x => target x.1) <$> log_of create_on_v2_run
  = [ "radar_events"; "radar_events_v2"; "radar_participants_v2" ].
Proof. split; vm_compute; reflexivity. Qed.

(** ** [joinRadarEvent]: the direct inserts *)

Lemma page_insert_phase {Srv} (respond : Srv -> Request -> Response * Srv) table P s :
  exists r' l s',
    Page.insertWithColumnFallback respond table P None s = (Ok r', l, s') /\
    Forall (inserts_into table) l /\
    first_body l = Some P /\
    ends_accepted l (bool_decide (Page.error r' = None)).
Proof.
  destruct (page_insert_shape respond table P None s)
    as (r' & l & s' & E & Hall & (x & t & -> & Hb) & Hlast).
  exists r', (x :: t), s'. split; [done|]. split; [done|]. split.
  - unfold first_body; simpl. by rewrite Hb.
  - destruct (last_nonempty (x :: t) ltac:(done)) as [[rq rs] Hl].
    exists rq, rs. split; [done|].
    destruct (Hlast _ _ Hl) as [Hiff _].
    case_bool_decide as He.
    + by apply Hiff.
    + destruct (insert_accepted rs); [|done]. destruct He. by apply Hiff.
Qed.

(** The loop over the two participant tables, seen from outside. *)
Lemma join_inserts_shape {Srv} (respond : Srv -> Request -> Response * Srv)
    primary secondary row m s :
  exists l1,
    Forall (inserts_into primary) l1 /\ first_body l1 = Some row /\
    ((result_of (Page.join_inserts respond [primary; secondary] row m s) = Ok m /\
      log_of (Page.join_inserts respond [primary; secondary] row m s) = l1 /\
      ends_accepted l1 true)
     \/
     (exists l2,
        Forall (inserts_into secondary) l2 /\ first_body l2 = Some row /\
        ends_accepted l1 false /\
        log_of (Page.join_inserts respond [primary; secondary] row m s) = l1 ++ l2 /\
        ((result_of (Page.join_inserts respond [primary; secondary] row m s) = Ok m /\
          ends_accepted l2 true)
         \/
         ((exists msg,
             result_of (Page.join_inserts respond [primary; secondary] row m s) = Throw msg) /\
          ends_accepted l2 false)))).
Proof.
  unfold Page.join_inserts, bind, result_of, log_of.
  destruct (page_insert_phase respond primary row s) as (r1 & l1 & s1 & -> & Hall1 & Hb1 & He1).
  exists l1. split; [done|]. split; [done|].
  destruct (Page.error r1) as [e1|] eqn:E1.
  - right.
    destruct (page_insert_phase respond secondary row s1)
      as (r2 & l2 & s2 & -> & Hall2 & Hb2 & He2).
    exists l2. split; [done|]. split; [done|].
    split; [by rewrite bool_decide_eq_false_2 in He1|].
    destruct (Page.error r2) as [e2|] eqn:E2; simpl; rewrite app_nil_r.
    + split; [done|]. right. split; [eauto|]. by rewrite bool_decide_eq_false_2 in He2.
    + split; [done|]. left. split; [done|]. by rewrite bool_decide_eq_true_2 in He2.
  - left. simpl. rewrite app_nil_r. split; [done|]. split; [done|].
    by rewrite bool_decide_eq_true_2 in He1.
Qed.

Lemma filter_select_inserts table (l : list Exchange) :
  Forall (inserts_into table) l -> filter (fun x => is_select x = true) l = [].
Proof.
  induction 1 as [|x l (b & sel & Hx) _ IH]; [done|].
  rewrite filter_cons_False; [done|]. unfold is_select. by rewrite Hx.
Qed.

Lemma filter_select_selects (l : list Exchange) :
  Forall (fun x => is_select x = true) l -> filter (fun x => is_select x = true) l = l.
Proof.
  induction 1 as [|x l Hx _ IH]; [done|]. by rewrite filter_cons_True, IH.
Qed.

#[local] Arguments Page.join_inserts : simpl never.

(** The part of [joinRadarEvent] below the RPC, seen from outside: one or
    two selects of the event row, then either a throw or the two-table loop
    with the status the last select dictates. *)
Lemma join_direct_shape {Srv} (respond : Srv -> Request -> Response * Srv)
    radarId userId source s :
  exists selects rq policy,
    Forall (fun x => is_select x = true) selects /\
    last selects = Some (rq, policy) /\
    (((exists msg, result_of (Page.join_direct respond radarId userId source s) = Throw msg) /\
      log_of (Page.join_direct respond radarId userId source s) = selects)
     \/
     (exists s1,
        result_of (Page.join_direct respond radarId userId source s)
        = result_of (Page.join_inserts respond
                       [Page.primaryTable source; Page.secondaryTable source]
                       (Page.memberParticipant radarId userId
                          (Page.fallbackMembershipStatus (r_data policy)))
                       (Page.fallbackMembershipStatus (r_data policy)) s1) /\
        log_of (Page.join_direct respond radarId userId source s)
        = selects ++
          log_of (Page.join_inserts respond
                    [Page.primaryTable source; Page.secondaryTable source]
                    (Page.memberParticipant radarId userId
                       (Page.fallbackMembershipStatus (r_data policy)))
                    (Page.fallbackMembershipStatus (r_data policy)) s1))).
Proof.
  unfold Page.join_direct, bind, send, result_of, log_of.
  set (q1 := Select (Page.eventTable source) "id, require_host_approval"
               [("id", VStr radarId)]).
  set (q2 := Select (Page.eventTable source) "id" [("id", VStr radarId)]).
  destruct (respond s q1) as [rs1 s1] eqn:E1.
  destruct (r_error rs1) as [e1|] eqn:Ee1.
  - destruct (Page.isMissingColumnError (message e1)).
    + destruct (respond s1 q2) as [rs2 s2] eqn:E2. simpl.
      exists [(q1, rs1); (q2, rs2)], q2, rs2.
      split; [repeat constructor|]. split; [done|].
      destruct (r_error rs2) as [e2|] eqn:Ee2.
      * destruct (Page.isPermissionError (message e2)); simpl.
        -- right. exists s2. by destruct (Page.join_inserts _ _ _ _ s2) as [[r l] s'].
        -- left. eauto.
      * right. exists s2. by destruct (Page.join_inserts _ _ _ _ s2) as [[r l] s'].
    + simpl. rewrite Ee1.
      exists [(q1, rs1)], q1, rs1.
      split; [repeat constructor|]. split; [done|].
      destruct (Page.isPermissionError (message e1)); simpl.
      * right. exists s1. by destruct (Page.join_inserts _ _ _ _ s1) as [[r l] s'].
      * left. eauto.
  - simpl. rewrite Ee1.
    exists [(q1, rs1)], q1, rs1.
    split; [repeat constructor|]. split; [done|].
    right. exists s1. by destruct (Page.join_inserts _ _ _ _ s1) as [[r l] s'].
Qed.

Lemma last_app_r {A} (l1 l2 : list A) x : last l2 = Some x -> last (l1 ++ l2) = Some x.
Proof. intros H. by rewrite last_app, H. Qed.

Lemma last_cons_r {A} (y : A) l x : last l = Some x -> last (y :: l) = Some x.
Proof. intros H. by rewrite last_cons, H. Qed.

Lemma last_Forall {A} (P : A -> Prop) l x : Forall P l -> last l = Some x -> P x.
Proof.
  intros Hall Hl. rewrite Forall_forall in Hall. apply Hall.
  by apply last_Some_elem_of.
Qed.

Lemma tables_differ source : Page.primaryTable source <> Page.secondaryTable source.
Proof. by destruct source. Qed.

Lemma filter_select_none (l : list Exchange) :
  Forall (fun x => is_select x = false) l -> filter (fun x => is_select x = true) l = [].
Proof.
  induction 1 as [|x l Hx _ IH]; [done|].
  rewrite filter_cons_False; [done|]. by rewrite Hx.
Qed.

Lemma inserts_not_select table (l : list Exchange) :
  Forall (inserts_into table) l -> Forall (fun x => is_select x = false) l.
Proof.
  intros H. eapply Forall_impl; [exact H|].
  intros x (b & sel & Hx). unfold is_select. by rewrite Hx.
Qed.

Lemma event_policy_of_log rpcx selects rest rq policy :
  is_select rpcx = false ->
  Forall (fun x => is_select x = true) selects ->
  last selects = Some (rq, policy) ->
  Forall (fun x => is_select x = false) rest ->
  event_policy (rpcx :: selects ++ rest) = r_data policy.
Proof.
  intros Hr Hs Hl Hrest. unfold event_policy.
  rewrite filter_cons_False by (by rewrite Hr).
  rewrite filter_app, (filter_select_selects _ Hs), (filter_select_none _ Hrest), app_nil_r.
  by rewrite Hl.
Qed.



(** The outcome of that scenario. *)
Lemma join_crossing_lands_in_v2 :
  result_of join_crossing_run = Ok Page.PENDING /\
  (fun x => target x.1) <$> log_of join_crossing_run
  = [ "join_radar_event"; "radar_events"; "radar_participants"; "radar_participants_v2" ].
Proof. split; vm_compute; reflexivity. Qed.

(** ** The host decision *)

#[local] Hint Unfold detail_decide detail_deletes : branches.

Lemma detail_update_runs {Srv} (respond : Srv -> Request -> Response * Srv)
    n table matchers w s :
  Runs (detail_update_query table matchers) detail_decide
    (Ok (Some {| message := "Gagal update " +:+ table; details := "" |})) n w
    (log_of (Detail.update_loop respond n table w matchers s))
    (result_of (Detail.update_loop respond n table w matchers s)).
Proof.
  revert w s. induction n as [|n IH]; intros w s.
  - constructor.
  - simpl. unfold bind, send.
    destruct (respond s (Update table w matchers)) as [rs s1] eqn:E.
    destruct (r_error rs) as [e|] eqn:Ee; [|run_returns].
    destruct (Detail.extractMissingColumnName (message e)) as [c|] eqn:Ex; [|run_returns].
    destruct (nonempty c && js_in c w && Detail.isMissingColumnError (message e)) eqn:Eg;
      [|run_returns].
    run_continues (IH (delete c w) s1).
Qed.

Lemma detail_insert_runs {Srv} (respond : Srv -> Request -> Response * Srv)
    n table onConflict w s :
  Runs (Detail.insert_query table onConflict) detail_decide
    (Ok (Some {| message := "Gagal insert/upsert " +:+ table; details := "" |})) n w
    (log_of (Detail.insert_loop respond n table onConflict w s))
    (result_of (Detail.insert_loop respond n table onConflict w s)).
Proof.
  revert w s. induction n as [|n IH]; intros w s.
  - constructor.
  - simpl. unfold bind, send.
    destruct (respond s (Detail.insert_query table onConflict w)) as [rs s1] eqn:E.
    destruct (r_error rs) as [e|] eqn:Ee; [|run_returns].
    destruct (Detail.extractMissingColumnName (message e)) as [c|] eqn:Ex; [|run_returns].
    destruct (nonempty c && js_in c w && Detail.isMissingColumnError (message e)) eqn:Eg;
      [|run_returns].
    run_continues (IH (delete c w) s1).
Qed.

(** A loop of the detail page only ever sends sub-payloads of the payload
    it was given, and always returns. *)
Lemma detail_runs_shape query exhausted n w l r :
  Runs query detail_decide (Ok exhausted) n w l r ->
  (exists r', r = Ok r') /\
  Forall (fun x : Exchange => exists w', x.1 = query w' /\ w' ⊆ w) l.
Proof.
  induction 1 as [w | n w rs r Hd | n w rs w' l r Hd Hr IH].
  - split; [eauto | constructor].
  - split.
    + unfold detail_decide in Hd. destruct (r_error rs) as [e|].
      * destruct (detail_deletes w (message e)); [discriminate|]. injection Hd as <-. eauto.
      * injection Hd as <-. eauto.
    + constructor; [|constructor]. exists w. done.
  - destruct IH as [Hok Hall]. split; [done|].
    assert (w' ⊆ w) as Hsub.
    { unfold detail_decide in Hd. destruct (r_error rs) as [e|]; [|discriminate].
      destruct (detail_deletes w (message e)) as [c|]; [|discriminate].
      injection Hd as <-. apply delete_subseteq. }
    constructor; [by exists w|].
    eapply Forall_impl; [exact Hall|].
    intros x (w0 & Hx & Hw0). exists w0. split; [done|]. by etrans.
Qed.

Lemma detail_update_shape {Srv} (respond : Srv -> Request -> Response * Srv)
    table P matchers s :
  exists r l s',
    Detail.updateWithColumnFallback respond table P matchers s = (Ok r, l, s') /\
    Forall (fun x : Exchange => exists w', x.1 = Update table w' matchers /\ w' ⊆ P) l.
Proof.
  pose proof (detail_update_runs respond 8 table matchers P s) as Hrun.
  unfold Detail.updateWithColumnFallback.
  destruct (Detail.update_loop respond 8 table P matchers s) as [[r l] s'].
  destruct (detail_runs_shape _ _ _ _ _ _ Hrun) as [[r' Hr] Hall].
  unfold result_of, log_of in *; simpl in *. subst r. eauto.
Qed.

Lemma detail_insert_shape {Srv} (respond : Srv -> Request -> Response * Srv)
    table P onConflict s :
  exists r l s',
    Detail.insertWithColumnFallback respond table P onConflict s = (Ok r, l, s') /\
    Forall (fun x : Exchange =>
              (exists b sel, x.1 = Insert table b sel) \/
              (exists b c, x.1 = Upsert table b c)) l.
Proof.
  pose proof (detail_insert_runs respond 8 table onConflict P s) as Hrun.
  unfold Detail.insertWithColumnFallback.
  destruct (Detail.insert_loop respond 8 table onConflict P s) as [[r l] s'].
  destruct (detail_runs_shape _ _ _ _ _ _ Hrun) as [[r' Hr] Hall].
  unfold result_of, log_of in *; simpl in *. subst r.
  exists r', l, s'. split; [done|].
  eapply Forall_impl; [exact Hall|].
  intros x (w' & -> & _). unfold Detail.insert_query.
  destruct onConflict as [c|]; [destruct (nonempty c)|]; eauto.
Qed.

Lemma participant_tables_of_source src t :
  t ∈ Detail.participantTables src -> t ∈ participant_tables.
Proof.
  destruct src; unfold participant_tables; simpl; [done|].
  rewrite !elem_of_cons. tauto.
Qed.

#[local] Arguments Detail.updateWithColumnFallback : simpl never.
#[local] Arguments Detail.insertWithColumnFallback : simpl never.

Lemma decide_loop_shape {Srv} (respond : Srv -> Request -> Response * Srv)
    tables p nowIso lastError s :
  (forall t, t ∈ tables -> t ∈ participant_tables) ->
  exists r l s',
    Detail.decide_loop respond tables p nowIso lastError s = (Ok r, l, s') /\
    Forall (fun x : Exchange => decision_request p nowIso x.1) l.
Proof.
  revert lastError s. induction tables as [|t tables IH]; intros lastError s Hin.
  - eexists _, _, _. split; [reflexivity | constructor].
  - simpl. unfold bind.
    destruct (detail_update_shape respond t (Detail.decisionPayload (Detail.approve p) nowIso)
                (Detail.decisionMatchers p) s) as (r & l & s1 & -> & Hall).
    assert (Forall (fun x : Exchange => decision_request p nowIso x.1) l) as Hl.
    { eapply Forall_impl; [exact Hall|]. intros x (w' & -> & Hsub). simpl.
      split; [apply Hin; by left | done]. }
    destruct r as [e|].
    + destruct (negb (Detail.isMissingColumnError (message e))
                && negb (Detail.isMissingRelationError (message e))
                && negb (Detail.isPermissionError (message e))).
      * eexists _, _, _. split; [reflexivity|]. by rewrite app_nil_r.
      * destruct (IH (message e) s1) as (r' & l' & s' & -> & Hl');
          [intros t0 Ht0; apply Hin; by right|].
        eexists _, _, _. split; [reflexivity|]. by apply Forall_app.
    + eexists _, _, _. split; [reflexivity|]. by rewrite app_nil_r.
Qed.

Lemma not_participant_table t :
  t = "radar_chat_members_v2" \/ t = "chat_members" \/ t = "notifications" ->
  t ∉ participant_tables.
Proof.
  unfold participant_tables.
  intros [-> | [-> | ->]] H;
    repeat (apply elem_of_cons in H as [H|H]; [discriminate|]);
    by apply elem_of_nil in H.
Qed.

Lemma side_insert_shape {Srv} (respond : Srv -> Request -> Response * Srv)
    p nowIso table P onConflict s :
  table = "radar_chat_members_v2" \/ table = "chat_members" \/ table = "notifications" ->
  exists r l s',
    Detail.insertWithColumnFallback respond table P onConflict s = (Ok r, l, s') /\
    Forall (fun x : Exchange => decision_request p nowIso x.1) l.
Proof.
  intros Ht. destruct (detail_insert_shape respond table P onConflict s)
    as (r & l & s' & -> & Hall).
  exists r, l, s'. split; [done|]. eapply Forall_impl; [exact Hall|].
  intros x [(b & sel & Hx) | (b & c & Hx)]; rewrite Hx; simpl;
    by apply not_participant_table.
Qed.

Lemma bridge_chat_shape {Srv} (respond : Srv -> Request -> Response * Srv)
    p nowIso eventRow s :
  exists l s',
    Detail.bridge_chat respond p nowIso eventRow s = (Ok tt, l, s') /\
    Forall (fun x : Exchange => decision_request p nowIso x.1) l.
Proof.
  unfold Detail.bridge_chat.
  destruct (Detail.approve p); [|eexists _, _; split; [reflexivity | constructor]].
  destruct (Detail.source p).
  - destruct (toString_opt (field "chat_room_id" eventRow)) as [chatRoomId|];
      [|eexists _, _; split; [reflexivity | constructor]].
    destruct (nonempty chatRoomId); [|eexists _, _; split; [reflexivity | constructor]].
    unfold bind.
    edestruct (side_insert_shape respond p nowIso "chat_members") as (r & l & s' & -> & Hall);
      [eauto|].
    eexists _, _. split; [reflexivity|]. by rewrite app_nil_r.
  - unfold bind, send.
    destruct (respond s _) as [chatGroup s1].
    destruct (toString_opt (field "id" (r_data chatGroup))) as [chatGroupId|];
      [|eexists _, _; split; [reflexivity | repeat constructor]].
    destruct (nonempty chatGroupId);
      [|eexists _, _; split; [reflexivity | repeat constructor]].
    edestruct (side_insert_shape respond p nowIso "radar_chat_members_v2")
      as (r & l & s' & -> & Hall); [eauto|].
    eexists _, _. split; [reflexivity|]. simpl. rewrite app_nil_r.
    constructor; [done|done].
Qed.

Lemma fetch_event_shape {Srv} (respond : Srv -> Request -> Response * Srv) nowIso p s :
  exists event l s',
    Detail.fetch_event respond p s = (Ok event, l, s') /\
    Forall (fun x : Exchange => decision_request p nowIso x.1) l.
Proof.
  unfold Detail.fetch_event, bind, send.
  destruct (respond s _) as [withChatRoom s1].
  destruct (r_error withChatRoom) as [e|].
  - destruct (Detail.isMissingColumnError (message e)).
    + destruct (respond s1 _) as [fallback s2].
      eexists _, _, _. split; [reflexivity | repeat constructor].
    + eexists _, _, _. split; [reflexivity | repeat constructor].
  - eexists _, _, _. split; [reflexivity | repeat constructor].
Qed.

Lemma decide_as_host_shape {Srv} (respond : Srv -> Request -> Response * Srv)
    nowIso p event s :
  Forall (fun x : Exchange => decision_request p nowIso x.1)
    (log_of (Detail.decide_as_host respond nowIso p event s)).
Proof.
  unfold Detail.decide_as_host, log_of.
  destruct (match r_error event with
            | Some e => if Detail.isPermissionError (message e) then None
                        else Some (message e)
            | None => None
            end); [constructor|].
  destruct (negb (truthy (field "id" (r_data event))) || _); [constructor|].
  unfold bind.
  destruct (decide_loop_shape respond (Detail.participantTables (Detail.source p))
              p nowIso "" s (participant_tables_of_source _))
    as (decided & l1 & s3 & -> & Hl1).
  destruct (negb decided.1).
  - simpl. by rewrite app_nil_r.
  - destruct (bridge_chat_shape respond p nowIso (r_data event) s3)
      as (l0 & s5 & -> & Hl0).
    edestruct (side_insert_shape respond p nowIso "notifications")
      as (r & l3 & s6 & -> & Hl3); [eauto|].
    simpl. rewrite app_nil_r. repeat (apply Forall_app; split); done.
Qed.

Lemma decision_requests {Srv} (respond : Srv -> Request -> Response * Srv) nowIso p s :
  Forall (fun x : Exchange => decision_request p nowIso x.1)
    (log_of (Detail.updateParticipantDecision respond nowIso p s)).
Proof.
  unfold Detail.updateParticipantDecision, bind.
  destruct (fetch_event_shape respond nowIso p s) as (event & l & s1 & -> & Hl).
  pose proof (decide_as_host_shape respond nowIso p event s1) as Hrest.
  destruct (Detail.decide_as_host respond nowIso p event s1) as [[r l'] s'].
  unfold log_of in *; simpl in *. by apply Forall_app.
Qed.

Lemma value_eqb_str v lit : value_eqb v (VStr lit) = true -> v = VStr lit.
Proof. destruct v; simpl; try discriminate. by intros ->%String.eqb_eq. Qed.

(** A filter on [status = 'PENDING'] passes rows in that status only. *)
Lemma pg_matches_pending p (row : payload) :
  pg_matches (Detail.decisionMatchers p) row = true ->
  row !! "status" = Some (VStr "PENDING").
Proof.
  unfold pg_matches, Detail.decisionMatchers; simpl.
  intros [_ [_ [Hs _]%andb_prop]%andb_prop]%andb_prop.
  destruct (row !! "status") as [v|]; [|discriminate].
  by rewrite (value_eqb_str _ _ Hs).
Qed.

Lemma decisionPayload_status approve_ nowIso :
  Detail.decisionPayload approve_ nowIso !! "status"
  = Some (VStr (Detail.nextStatus approve_)).
Proof. by destruct approve_. Qed.


(** A host approves: the pending row of the target becomes JOINED, a row
    that already left stays as it is. *)
Lemma host_decision_on_rows :
  exists rq rs,
    log_of approve_pending_run !! 1%nat = Some (rq, rs) /\
    row_after rq "radar_participants"
      {[ "radar_id" := VStr "r1"; "user_id" := VStr "u2"; "status" := VStr "PENDING" ]}
    = Some (Detail.decisionPayload true "2026-02-19T10:00:00.000Z"
            ∪ {[ "radar_id" := VStr "r1"; "user_id" := VStr "u2" ]}) /\
    row_after rq "radar_participants"
      {[ "radar_id" := VStr "r1"; "user_id" := VStr "u2"; "status" := VStr "LEFT" ]}
    = Some {[ "radar_id" := VStr "r1"; "user_id" := VStr "u2"; "status" := VStr "LEFT" ]}.
Proof. eexists _, _. repeat split; vm_compute; reflexivity. Qed.

(** ** The other retry loops have their ceilings too *)

Lemma detail_update_body_query table matchers w :
  body_of (detail_update_query table matchers w) = w.
Proof. done. Qed.

Lemma detail_insert_body_query table onConflict w :
  body_of (Detail.insert_query table onConflict w) = w.
Proof.
  unfold Detail.insert_query. destruct onConflict as [c|]; [destruct (nonempty c)|]; done.
Qed.

(** [setCheckOutNow] stops after 8 attempts, [archiveCheckInsByUser] after
    10, the update and insert loops of the detail page after 8; each has a
    synthesized failure of its own wording. *)
Lemma other_loops_bounded {Srv} (respond : Srv -> Request -> Response * Srv) :
  (forall nowIso userId active s,
     length (log_of (Page.setCheckOutNow respond nowIso userId active s)) <= 8 /\
     (forallb (goes_on checkout_decide)
        (log_of (Page.setCheckOutNow respond nowIso userId active s)) = true ->
      result_of (Page.setCheckOutNow respond nowIso userId active s)
      = Throw "Gagal check-out sekarang.")) /\
  (forall nowIso t userId s,
     length (log_of (Script.archiveCheckInsByUser respond nowIso t userId s)) <= 10 /\
     (forallb (goes_on archive_decide)
        (log_of (Script.archiveCheckInsByUser respond nowIso t userId s)) = true ->
      result_of (Script.archiveCheckInsByUser respond nowIso t userId s)
      = Ok (Script.update_result false false false
              (Some {| message := "Gagal mengarsipkan " +:+ t +:+ "."; details := "" |})))) /\
  (forall table P matchers s,
     length (log_of (Detail.updateWithColumnFallback respond table P matchers s)) <= 8 /\
     (forallb (goes_on detail_decide)
        (log_of (Detail.updateWithColumnFallback respond table P matchers s)) = true ->
      result_of (Detail.updateWithColumnFallback respond table P matchers s)
      = Ok (Some {| message := "Gagal update " +:+ table; details := "" |}))) /\
  (forall table P onConflict s,
     length (log_of (Detail.insertWithColumnFallback respond table P onConflict s)) <= 8 /\
     (forallb (goes_on detail_decide)
        (log_of (Detail.insertWithColumnFallback respond table P onConflict s)) = true ->
      result_of (Detail.insertWithColumnFallback respond table P onConflict s)
      = Ok (Some {| message := "Gagal insert/upsert " +:+ table; details := "" |}))).
Proof.
  split; [|split; [|split]].
  - intros nowIso userId active s.
    pose proof (checkout_runs respond 8 active userId (Page.archivePayload nowIso) s) as Hrun.
    split; [eapply Runs_length, Hrun|]. intros Hall.
    eapply (Runs_all_continue _ _ _ (checkout_body_query active userId)), Hall. exact Hrun.
  - intros nowIso t userId s.
    pose proof (archive_runs respond 10 t userId
                  {[ "status" := VStr "ARCHIVED"; "archived_at" := VStr nowIso;
                     "updated_at" := VStr nowIso ]} s) as Hrun.
    split; [eapply Runs_length, Hrun|]. intros Hall.
    eapply (Runs_all_continue _ _ _ (archive_body_query t userId)), Hall. exact Hrun.
  - intros table P matchers s.
    pose proof (detail_update_runs respond 8 table matchers P s) as Hrun.
    split; [eapply Runs_length, Hrun|]. intros Hall.
    eapply (Runs_all_continue _ _ _ (detail_update_body_query table matchers)), Hall.
    exact Hrun.
  - intros table P onConflict s.
    pose proof (detail_insert_runs respond 8 table onConflict P s) as Hrun.
    split; [eapply Runs_length, Hrun|]. intros Hall.
    eapply (Runs_all_continue _ _ _ (detail_insert_body_query table onConflict)), Hall.
    exact Hrun.
Qed.
